(** * The protein-product CSV generator ([generate_protein_products_fixed.py])

    A shallow embedding of the script: Python values and dictionaries, the
    calls it makes into [random], [round], f-strings, [pandas.DataFrame] and
    [DataFrame.to_csv], the 400-iteration loop that builds [products], and
    the serialised file.  Randomness is an explicit entropy tape threaded
    through a state-and-exception monad, so every statement below is
    quantified over all possible runs of the script.  Floats are IEEE-754
    binary64 numbers, with the operations of [SpecFloat].  The messages the
    script prints at the end are not part of the embedding. *)

From Stdlib Require Import ZArith List String Ascii Bool Lia Permutation.
From Stdlib Require Import Decimal DecimalString DecimalZ.
From Stdlib Require Import Floats.SpecFloat.
Import ListNotations.

Local Open Scope string_scope.
Local Open Scope Z_scope.

(** ** Python strings and integer formatting *)

Module PyStr.

(** [str(z)] for a Python [int]. *)
Definition str_of_int (z : Z) : string :=
  NilZero.string_of_int (Z.to_int z).

Fixpoint replicate (n : nat) (c : ascii) : string :=
  match n with
  | O => EmptyString
  | S n' => String c (replicate n' c)
  end.

(** [format(z, "0<width>d")]: sign-aware zero padding to a minimum width;
    longer numbers are left as they are. *)
Definition format_0d (width : nat) (z : Z) : string :=
  let digits := str_of_int (Z.abs z) in
  let sign := if z <? 0 then "-" else EmptyString in
  sign ++ replicate (width - String.length sign - String.length digits) "0"
       ++ digits.

(** [sep.join(parts)]. *)
Fixpoint join (sep : string) (parts : list string) : string :=
  match parts with
  | [] => EmptyString
  | [p] => p
  | p :: rest => p ++ sep ++ join sep rest
  end.

Fixpoint chars (s : string) : list ascii :=
  match s with
  | EmptyString => []
  | String c s' => c :: chars s'
  end.

Definition contains (c : ascii) (s : string) : bool :=
  existsb (Ascii.eqb c) (chars s).

End PyStr.

(** ** IEEE-754 binary64, as Python's [float] *)

Module PyFloat.

Definition float := spec_float.

Definition prec : Z := 53.
Definition emax : Z := 1024.

Definition add : float -> float -> float := SFadd prec emax.
Definition sub : float -> float -> float := SFsub prec emax.
Definition mul : float -> float -> float := SFmul prec emax.
Definition div : float -> float -> float := SFdiv prec emax.

(** The double [m * 2^e], correctly rounded (exact when [m] fits 53 bits). *)
Definition ldexp (m e : Z) : float := binary_normalize prec emax m e false.

(** The double nearest to the rational [n / d]: what reading a decimal
    literal or [strtod] yields. *)
Definition of_ratio (n : Z) (d : positive) : float :=
  match n with
  | Z0 => S754_zero false
  | Zpos p => div (S754_finite false p 0) (S754_finite false d 0)
  | Zneg p => div (S754_finite true p 0) (S754_finite false d 0)
  end.

(** Quotient of [n / d] rounded to the nearest integer, ties to even
    ([d > 0], [n >= 0]). *)
Definition div_half_even (n d : Z) : Z :=
  let q := n / d in
  let r := n mod d in
  match 2 * r ?= d with
  | Lt => q
  | Gt => q + 1
  | Eq => if Z.even q then q else q + 1
  end.

(** [round(x, ndigits)] for [ndigits >= 0]: the exact binary value of [x]
    is rounded half-even to [ndigits] decimal places, and the resulting
    decimal is converted back to the nearest double.  Infinities and NaN
    round to themselves. *)
Definition round (x : float) (ndigits : nat) : float :=
  match x with
  | S754_finite s m e =>
      let scale := 10 ^ Z.of_nat ndigits in
      let q := if 0 <=? e
               then Zpos m * 2 ^ e * scale
               else div_half_even (Zpos m * scale) (2 ^ (- e)) in
      match q with
      | Zpos p => div (S754_finite s p 0)
                      (S754_finite false (Z.to_pos scale) 0)
      | _ => S754_zero s
      end
  | _ => x
  end.

Definition leb : float -> float -> bool := SFleb.

End PyFloat.

(** ** The [random] module over an entropy tape *)

Module PyRandom.
Import PyFloat.

(** The generator state: an unbounded tape of raw entropy words and the
    position of the next unread word.  Each primitive draw consumes one
    word. *)
Record rng := mk_rng { tape : nat -> Z; pos : nat }.

Inductive exn := IndexError | ValueError.

Inductive result (A : Type) :=
| Ok (a : A) (g : rng)
| Raise (e : exn).
Arguments Ok {A} a g.
Arguments Raise {A} e.

Definition M (A : Type) : Type := rng -> result A.

Definition ret {A} (a : A) : M A := fun g => Ok a g.

Definition bind {A B} (m : M A) (k : A -> M B) : M B :=
  fun g => match m g with
           | Ok a g' => k a g'
           | Raise e => Raise e
           end.

Definition raise {A} (e : exn) : M A := fun _ => Raise e.

Definition advance (n : nat) (g : rng) : rng :=
  mk_rng (tape g) (n + pos g).

(** [_randbelow(n)]: a value in [[0, n)], here the next raw word reduced
    modulo [n]. *)
Definition randbelow (n : Z) : M Z :=
  fun g => Ok (tape g (pos g) mod n) (advance 1 g).

(** [random.randint(a, b)]: [a + _randbelow(b - a + 1)], or [ValueError]
    on an empty range. *)
Definition randint (a b : Z) : M Z :=
  if 0 <? b - a + 1
  then bind (randbelow (b - a + 1)) (fun r => ret (a + r))
  else raise ValueError.

(** [random.choice(seq)]: [seq[_randbelow(len(seq))]], or [IndexError] on
    an empty sequence. *)
Definition choice {A} (seq : list A) : M A :=
  match seq with
  | [] => raise IndexError
  | x :: _ =>
      bind (randbelow (Z.of_nat (List.length seq)))
           (fun r => ret (nth (Z.to_nat r) seq x))
  end.

(** The element [choice] returns on a non-empty list [x :: l]. *)
Definition pick {A} (x : A) (l : list A) (g : rng) : A :=
  nth (Z.to_nat (tape g (pos g) mod Z.of_nat (List.length (x :: l))))
      (x :: l) x.

(** [random.random()]: [k / 2^53] for a 53-bit [k], a double in [[0, 1)]. *)
Definition random : M float :=
  bind (randbelow (2 ^ 53)) (fun k => ret (ldexp k (-53))).

(** [random.uniform(a, b)]: [a + (b - a) * random()]. *)
Definition uniform (a b : float) : M float :=
  bind random (fun r => ret (add a (mul (sub b a) r))).

End PyRandom.

Declare Scope rand_scope.
Delimit Scope rand_scope with rand.
Notation "x <- m ;; k" := (PyRandom.bind m (fun x => k))
  (at level 61, m at next level, right associativity) : rand_scope.

(** ** Python values and dictionaries *)

Inductive value :=
| VStr (s : string)
| VInt (z : Z)
| VFloat (x : PyFloat.float).

(** A [dict] with string keys, kept as the list of its items in insertion
    order. *)
Definition dict := list (string * value).

Definition keys (d : dict) : list string := map fst d.

Fixpoint dict_get (k : string) (d : dict) : option value :=
  match d with
  | [] => None
  | (k', v) :: rest => if String.eqb k k' then Some v else dict_get k rest
  end.

(** ** The script *)

Module Generator.
Import PyStr PyFloat PyRandom.
Local Open Scope rand_scope.

(** *** Sample values *)

Definition brands : list string :=
  ["Optimus"; "Health Supp"; "GNC"; "MuscleBlaze"; "Ultimate Nutrition";
   "ON"; "Labrada"; "Dymatize"].
Definition manufacturers : list string :=
  ["Optimus Inc"; "GNC Ltd"; "MuscleBlaze Pvt"; "Ultimate Nutrition Co";
   "Dymatize India"; "ON Labs"].
Definition countries : list string :=
  ["India"; "USA"; "Germany"; "UK"; "Canada"].
Definition flavors : list string :=
  ["Chocolate"; "Vanilla"; "Strawberry"; "Mango"; "Banana";
   "Cookies & Cream"; "Unflavored"].
Definition certifications : list string :=
  ["FSSAI Approved"; "GMP Certified"; "ISO 22000"; "FDA Approved";
   "Halal Certified"].
Definition dietary_info : list string :=
  ["vegetarian"; "vegan"; "non-GMO"; "gluten-free"; "organic"].
Definition skin_types : list string :=
  ["normal"; "dry"; "oily"; "combination"; "sensitive"].
Definition hair_types : list string :=
  ["straight"; "wavy"; "curly"; "fine"; "thick"].
Definition allergens : list string :=
  ["nuts"; "dairy"; "gluten"; "soy"].
Definition seasons : list string :=
  ["spring"; "summer"; "fall"; "winter"; "all-season"].
Definition genders : list string := ["men"; "women"; "unisex"].
Definition age_groups : list string :=
  ["adult"; "teen"; "senior"; "all-ages"].

(** *** All CSV columns *)

Definition all_columns : list string :=
  ["name"; "description"; "price"; "originalPrice"; "images"; "category";
   "subcategory"; "brand"; "stock";
   "rating"; "reviewCount"; "tags"; "features"; "ingredients";
   "isNewProduct"; "isBestseller"; "isFeatured";
   "sku"; "barcode"; "color"; "size"; "material"; "scent"; "gender";
   "ageGroup"; "manufacturer";
   "countryOfOrigin"; "allergens"; "dietaryInfo"; "skinType"; "hairType";
   "careInstructions";
   "certifications"; "keywords"; "metaTitle"; "metaDescription";
   "minOrderQuantity"; "maxOrderQuantity";
   "season"; "spf"].

(** The float literals [3.5] and [5.0]. *)
Definition lit_3_5 : float := of_ratio 35 10.
Definition lit_5_0 : float := of_ratio 50 10.

(** [random.choice(candidates) if random.choice([True, False]) else ""]:
    the condition is evaluated first, and the candidate is drawn only when
    it holds. *)
Definition optional (candidates : list string) : M string :=
  flip <- choice [true; false];;
  if flip then choice candidates else ret EmptyString.

(** *** The body of the loop, for index [i] *)

Definition gen_row (i : Z) : M dict :=
  price <- randint 999 4999;;
  delta <- randint 200 1000;;
  let original_price := price + delta in
  stock <- randint 50 300;;
  u <- uniform lit_3_5 lit_5_0;;
  let rating := round u 1 in
  reviews <- randint 50 1000;;
  brand <- choice brands;;
  manufacturer <- choice manufacturers;;
  country <- choice countries;;
  flavor <- choice flavors;;
  cert <- choice certifications;;
  diet <- choice dietary_info;;
  let image_num := (i mod 9) + 1 in
  is_new <- choice ["TRUE"; "FALSE"];;
  is_bestseller <- choice ["TRUE"; "FALSE"];;
  is_featured <- choice ["TRUE"; "FALSE"];;
  barcode <- randint 100000000000 999999999999;;
  grams <- randint 500 2000;;
  gender <- choice genders;;
  age_group <- choice age_groups;;
  allergen <- optional allergens;;
  skin_type <- optional skin_types;;
  hair_type <- optional hair_types;;
  max_order <- randint 5 20;;
  season <- choice seasons;;
  ret [ ("name", VStr ("Protein Supplement " ++ str_of_int i));
        ("description",
         VStr ("High-quality Protein supplement " ++ str_of_int i
               ++ " ideal for muscle growth and recovery. " ++ flavor
               ++ " flavor for gym and fitness enthusiasts."));
        ("price", VInt price);
        ("originalPrice", VInt original_price);
        ("images",
         VStr ("uploads/products/protien" ++ str_of_int image_num
               ++ ".jpg"));
        ("category", VStr "Proteins");
        ("subcategory", VStr "Health Supplement");
        ("brand", VStr brand);
        ("stock", VInt stock);
        ("rating", VFloat rating);
        ("reviewCount", VInt reviews);
        ("tags", VStr "Protein,supplement,gym,fitness,muscle");
        ("features",
         VStr ("Supports muscle growth,Boosts recovery,High Protein content,"
               ++ flavor ++ " flavor"));
        ("ingredients",
         VStr "Whey Protein Concentrate,Whey Protein Isolate,BCAAs,Digestive Enzymes");
        ("isNewProduct", VStr is_new);
        ("isBestseller", VStr is_bestseller);
        ("isFeatured", VStr is_featured);
        ("sku", VStr ("PROT" ++ format_0d 4 i));
        ("barcode", VStr (str_of_int barcode));
        ("color", VStr "N/A");
        ("size", VStr (str_of_int grams ++ "g"));
        ("material", VStr "Plastic Jar");
        ("scent", VStr flavor);
        ("gender", VStr gender);
        ("ageGroup", VStr age_group);
        ("manufacturer", VStr manufacturer);
        ("countryOfOrigin", VStr country);
        ("allergens", VStr allergen);
        ("dietaryInfo", VStr diet);
        ("skinType", VStr skin_type);
        ("hairType", VStr hair_type);
        ("careInstructions",
         VStr "Store in a cool dry place,Keep away from moisture");
        ("certifications", VStr cert);
        ("keywords", VStr "Protein,health,supplement,gym,fitness,muscle");
        ("metaTitle",
         VStr (brand ++ " Protein Supplement " ++ str_of_int i ++ " - "
               ++ flavor));
        ("metaDescription",
         VStr ("Buy " ++ brand ++ " " ++ flavor ++ " Protein supplement "
               ++ str_of_int i
               ++ " - premium protein for strength, muscle growth, and fitness."));
        ("minOrderQuantity", VInt 1);
        ("maxOrderQuantity", VInt max_order);
        ("season", VStr season);
        ("spf", VStr EmptyString) ]%list.

(** [range(start, stop)]. *)
Definition range (start stop : Z) : list Z :=
  map (fun k => start + Z.of_nat k) (seq 0 (Z.to_nat (stop - start))).

(** [for i in indices: ...; products.append(row)]. *)
Fixpoint for_each (indices : list Z) (products : list dict)
  : M (list dict) :=
  match indices with
  | [] => ret products
  | i :: rest =>
      row <- gen_row i;;
      for_each rest (products ++ [row])%list
  end.

(** [products = []] followed by the loop over [range(1, 401)]. *)
Definition generate : M (list dict) := for_each (range 1 401) [].

End Generator.

(** ** Printing a [float]: the shortest decimal that reads back *)

Module FloatRepr.
Import PyStr PyFloat.

Definition digit_char (d : Z) : ascii :=
  match d with
  | 0 => "0" | 1 => "1" | 2 => "2" | 3 => "3" | 4 => "4"
  | 5 => "5" | 6 => "6" | 7 => "7" | 8 => "8" | _ => "9"
  end%char.

Fixpoint digits_str (ds : list Z) : string :=
  match ds with
  | [] => EmptyString
  | d :: rest => String (digit_char d) (digits_str rest)
  end.

(** The state of the digit generation: the value is [r / s], and the
    doubles halfway to the two neighbours are [(r - m_lo) / s] and
    [(r + m_hi) / s]. *)
Record interval := mk_interval { r : Z; s : Z; m_hi : Z; m_lo : Z }.

(** The interval of reals that round to the double [f * 2^e] ([f > 0]),
    doubled so that its ends are integers. *)
Definition init (f e : Z) : interval :=
  if 0 <=? e then
    if f =? 2 ^ 52
    then mk_interval (f * 2 ^ e * 4) 4 (2 ^ e * 2) (2 ^ e)
    else mk_interval (f * 2 ^ e * 2) 2 (2 ^ e) (2 ^ e)
  else
    if (e =? -1074) || negb (f =? 2 ^ 52)
    then mk_interval (f * 2) (2 ^ (- e) * 2) 1 1
    else mk_interval (f * 4) (2 ^ (- e) * 4) 2 1.

(** Does the upper end reach [1]?  The ends belong to the interval when
    the mantissa is even. *)
Definition too_low (even : bool) (v : interval) : bool :=
  if even then s v <=? r v + m_hi v else s v <? r v + m_hi v.

Definition times10 (v : interval) : interval :=
  mk_interval (r v * 10) (s v) (m_hi v * 10) (m_lo v * 10).

(** Scale by powers of ten until the upper end lies in [[1/10, 1)]; [k] is
    the decimal exponent, the value being [0.d1 d2 ... * 10^k]. *)
Fixpoint scale_up (fuel : nat) (even : bool) (v : interval) (k : Z)
  : interval * Z :=
  match fuel with
  | O => (v, k)
  | S fuel' =>
      if too_low even v
      then scale_up fuel' even
             (mk_interval (r v) (s v * 10) (m_hi v) (m_lo v)) (k + 1)
      else (v, k)
  end.

Fixpoint scale_down (fuel : nat) (even : bool) (v : interval) (k : Z)
  : interval * Z :=
  match fuel with
  | O => (v, k)
  | S fuel' =>
      if too_low even (times10 v)
      then (v, k)
      else scale_down fuel' even (times10 v) (k - 1)
  end.

(** Emit digits until a shorter output would leave the interval. *)
Fixpoint generate (fuel : nat) (even : bool) (v : interval) : list Z :=
  match fuel with
  | O => []
  | S fuel' =>
      let v10 := times10 v in
      let d := r v10 / s v10 in
      let rem := r v10 mod s v10 in
      let tc1 := if even then rem <=? m_lo v10 else rem <? m_lo v10 in
      let tc2 := if even then s v10 <=? rem + m_hi v10
                 else s v10 <? rem + m_hi v10 in
      match tc1, tc2 with
      | false, false =>
          d :: generate fuel' even
                 (mk_interval rem (s v10) (m_hi v10) (m_lo v10))
      | false, true => [d + 1]
      | true, false => [d]
      | true, true => if rem * 2 <? s v10 then [d] else [d + 1]
      end
  end.

(** The shortest digits of [f * 2^e] and its decimal point position. *)
Definition shortest (f e : Z) : list Z * Z :=
  let even := Z.even f in
  let '(v1, k1) := scale_up 400 even (init f e) 0 in
  let '(v2, k2) := scale_down 400 even v1 k1 in
  (generate 20 even v2, k2).

Definition zeros (n : Z) : string := replicate (Z.to_nat n) "0".

Definition exponent_str (x : Z) : string :=
  let digits := str_of_int (Z.abs x) in
  (if x <? 0 then "-" else "+")
    ++ (if Z.abs x <? 10 then "0" else EmptyString) ++ digits.

(** Layout of [repr]: positional notation when the decimal point falls
    in [(-4, 16]], exponent notation otherwise. *)
Definition layout (ds : list Z) (decpt : Z) : string :=
  let n := Z.of_nat (List.length ds) in
  if (decpt <=? -4) || (16 <? decpt) then
    match ds with
    | [] => EmptyString
    | [d] => digits_str [d] ++ "e" ++ exponent_str (decpt - 1)
    | d :: rest =>
        digits_str [d] ++ "." ++ digits_str rest ++ "e"
          ++ exponent_str (decpt - 1)
    end
  else if decpt <=? 0 then
    "0." ++ zeros (- decpt) ++ digits_str ds
  else if n <=? decpt then
    digits_str ds ++ zeros (decpt - n) ++ ".0"
  else
    digits_str (firstn (Z.to_nat decpt) ds) ++ "."
      ++ digits_str (skipn (Z.to_nat decpt) ds).

(** [repr(x)]. *)
Definition repr (x : float) : string :=
  match x with
  | S754_nan => "nan"
  | S754_infinity sg => if sg then "-inf" else "inf"
  | S754_zero sg => if sg then "-0.0" else "0.0"
  | S754_finite sg m e =>
      let '(ds, k) := shortest (Zpos m) e in
      (if sg then "-" else EmptyString) ++ layout ds k
  end.

End FloatRepr.

(** ** [pandas.DataFrame] and [DataFrame.to_csv] *)

Module Pandas.
Import PyStr PyFloat.

(** A cell is a value, or missing ([NaN]) when [None]. *)
Definition cell := option value.

Record DataFrame := mk_frame {
  columns : list string;
  data : list (list cell)
}.

Definition len (df : DataFrame) : nat := List.length (data df).

Definition is_numeric_or_missing (c : cell) : bool :=
  match c with
  | Some (VStr _) => false
  | _ => true
  end.

Definition is_float_or_missing (c : cell) : bool :=
  match c with
  | Some (VFloat _) | None => true
  | _ => false
  end.

(** A column gets the dtype [float64] when all its cells are numbers or
    missing and one of them is a float or missing; its integers are then
    stored as floats.  (This is how pandas types integers that fit 64
    bits, as all integers of this script do.) *)
Definition float_column (cells : list cell) : bool :=
  forallb is_numeric_or_missing cells && existsb is_float_or_missing cells.

Definition store (as_float : bool) (c : cell) : cell :=
  match c with
  | Some (VInt z) => if as_float then Some (VFloat (ldexp z 0)) else c
  | _ => c
  end.

(** [pd.DataFrame(records, columns=cols)]: one row per record, holding for
    each requested column the record's value under that key; keys that
    are not requested are dropped, and the order of the keys inside a
    record plays no role. *)
Definition from_records (records : list dict) (cols : list string)
  : DataFrame :=
  let dtypes :=
    map (fun c => (c, float_column (map (dict_get c) records))) cols in
  mk_frame cols
    (map (fun rec =>
            map (fun '(c, as_float) => store as_float (dict_get c rec))
                dtypes)
         records).

Definition LF : ascii := "010"%char.
Definition dquote : ascii := "034"%char.
Definition comma : ascii := ","%char.

(** How a cell is written: strings as they are, integers in decimal,
    floats as their shortest [repr], and missing values and NaN as the
    empty [na_rep]. *)
Definition cell_str (c : cell) : string :=
  match c with
  | None => EmptyString
  | Some (VStr s) => s
  | Some (VInt z) => str_of_int z
  | Some (VFloat S754_nan) => EmptyString
  | Some (VFloat x) => FloatRepr.repr x
  end.

(** [csv.QUOTE_MINIMAL]: a field is quoted when it contains the delimiter,
    the quote character or a character of the line terminator; quote
    characters inside it are doubled. *)
Definition special (c : ascii) : bool :=
  Ascii.eqb c comma || Ascii.eqb c dquote || Ascii.eqb c LF.

Definition needs_quoting (s : string) : bool := existsb special (chars s).

Fixpoint double_quotes (s : string) : string :=
  match s with
  | EmptyString => EmptyString
  | String c s' =>
      if Ascii.eqb c dquote
      then String dquote (String dquote (double_quotes s'))
      else String c (double_quotes s')
  end.

Definition csv_field (s : string) : string :=
  if needs_quoting s
  then String dquote (double_quotes s ++ String dquote EmptyString)
  else s.

(** One record of the file, without its line terminator.  A row made of a
    single empty field is written as a pair of quotes. *)
Definition csv_record (fields : list string) : string :=
  match fields with
  | [EmptyString] => String dquote (String dquote EmptyString)
  | _ => join "," (map csv_field fields)
  end.

(** Every record is followed by the line terminator, [os.linesep], a line
    feed on POSIX systems. *)
Definition terminate (line : string) : string :=
  line ++ String LF EmptyString.

(** The records of [to_csv(path, index=False)]: the header, then the rows
    in order. *)
Definition csv_records (df : DataFrame) : list string :=
  csv_record (columns df)
    :: map (fun row => csv_record (map cell_str row)) (data df).

(** The text written to the file. *)
Definition to_csv (df : DataFrame) : string :=
  String.concat EmptyString (map terminate (csv_records df)).

(** [text.split("\n")], with the empty piece after a final terminator
    dropped: the lines of a text file. *)
Fixpoint lines_from (cur : string) (s : string) : list string :=
  match s with
  | EmptyString =>
      match cur with EmptyString => [] | _ => [cur] end
  | String c s' =>
      if Ascii.eqb c LF
      then cur :: lines_from EmptyString s'
      else lines_from (cur ++ String c EmptyString) s'
  end.

Definition lines (s : string) : list string := lines_from EmptyString s.

End Pandas.

(** ** The whole run *)

Module Script.
Import PyRandom Generator Pandas.
Local Open Scope rand_scope.

Definition output_file : string := "protein_products_400_complete.csv".

(** What a run leaves behind: the list [products], the frame [df], and the
    text [written] to the file at [path].  The summary the script prints
    afterwards reads [len(df)] and [len(all_columns)] and changes nothing. *)
Record outcome := mk_outcome {
  products : list dict;
  df : DataFrame;
  path : string;
  written : string
}.

Definition main : M outcome :=
  products <- generate;;
  let df := from_records products all_columns in
  ret (mk_outcome products df output_file (to_csv df)).

End Script.

(** ** Run states, predicates and checks used in the statements *)

Module Checks.
Import PyStr.

(** The string holds no line feed. *)
Definition no_lf (s : string) : bool := negb (contains Pandas.LF s).

Definition is_digit (c : ascii) : bool :=
  existsb (Ascii.eqb c) (chars "0123456789").

Definition all_digits (s : string) : bool := forallb is_digit (chars s).

(** The number a string of decimal digits denotes; leading zeros are
    allowed. *)
Definition decimal_value (s : string) : option Z :=
  option_map Z.of_uint (NilEmpty.uint_of_string s).

(** The outcome of [random.choice([True, False])] in state [g]. *)
Definition coin (g : PyRandom.rng) : bool :=
  match PyRandom.choice [true; false] g with
  | PyRandom.Ok b _ => b
  | PyRandom.Raise _ => false
  end.

(** The state after one evaluation of [Generator.optional], and the
    value it yields on the candidates [x :: l]. *)
Definition after_optional (g : PyRandom.rng) : PyRandom.rng :=
  PyRandom.advance (if coin g then 2 else 1) g.

Definition optional_value (x : string) (l : list string)
  (g : PyRandom.rng) : string :=
  if coin g then PyRandom.pick x l (PyRandom.advance 1 g) else EmptyString.

(** The state in which an iteration of the loop started in [g] ends, and
    the state in which iteration number [n] (counted from 0) starts when
    the script starts in [g]. *)
Definition after_row (g : PyRandom.rng) : PyRandom.rng :=
  PyRandom.advance 2
    (after_optional (after_optional (after_optional (PyRandom.advance 18 g)))).

Definition state_at (n : nat) (g : PyRandom.rng) : PyRandom.rng :=
  Nat.iter n after_row g.

Definition is_int (v : value) : bool :=
  match v with
  | VInt _ => true
  | _ => false
  end.

(** The columns whose cells are Python integers. *)
Definition int_columns : list string :=
  ["price"; "originalPrice"; "stock"; "reviewCount"; "minOrderQuantity";
   "maxOrderQuantity"].

Definition plain (v : value) : Prop :=
  match v with
  | VStr s => no_lf s = true
  | _ => True
  end.

(** What one iteration of the loop, started in state [g] with index [i],
    puts into its row. *)
Record row_facts (i : Z) (g : PyRandom.rng) (row : dict) : Prop := {
  rf_keys : keys row = Generator.all_columns;
  rf_price :
    exists price delta,
      dict_get "price" row = Some (VInt price)
      /\ dict_get "originalPrice" row = Some (VInt (price + delta))
      /\ 999 <= price <= 4999 /\ 200 <= delta <= 1000;
  rf_stock :
    exists stock,
      dict_get "stock" row = Some (VInt stock) /\ 50 <= stock <= 300;
  rf_rating :
    exists k,
      0 <= k < 2 ^ 53
      /\ dict_get "rating" row
         = Some (VFloat
                   (PyFloat.round
                      (PyFloat.add Generator.lit_3_5
                         (PyFloat.mul
                            (PyFloat.sub Generator.lit_5_0
                                         Generator.lit_3_5)
                            (PyFloat.ldexp k (-53))))
                      1));
  rf_reviews :
    exists reviews,
      dict_get "reviewCount" row = Some (VInt reviews)
      /\ 50 <= reviews <= 1000;
  rf_images :
    dict_get "images" row
    = Some (VStr ("uploads/products/protien"
                  ++ PyStr.str_of_int (i mod 9 + 1) ++ ".jpg"));
  rf_category : dict_get "category" row = Some (VStr "Proteins");
  rf_sku :
    dict_get "sku" row = Some (VStr ("PROT" ++ PyStr.format_0d 4 i));
  rf_allergens :
    dict_get "allergens" row
    = Some (VStr (optional_value "nuts" ["dairy"; "gluten"; "soy"]
                    (PyRandom.advance 18 g)));
  rf_skin :
    dict_get "skinType" row
    = Some (VStr (optional_value "normal"
                    ["dry"; "oily"; "combination"; "sensitive"]
                    (after_optional (PyRandom.advance 18 g))));
  rf_hair :
    dict_get "hairType" row
    = Some (VStr (optional_value "straight"
                    ["wavy"; "curly"; "fine"; "thick"]
                    (after_optional
                       (after_optional (PyRandom.advance 18 g)))));
  rf_min : dict_get "minOrderQuantity" row = Some (VInt 1);
  rf_max :
    exists most,
      dict_get "maxOrderQuantity" row = Some (VInt most)
      /\ 5 <= most <= 20;
  rf_plain : Forall (fun kv => plain (snd kv)) row;
  rf_ints :
    map (fun kv => (fst kv, is_int (snd kv))) row
    = map (fun c => (c, existsb (String.eqb c) int_columns))
          Generator.all_columns
}.

(** The states in which the three coins of row number [n] (from 0) are
    flipped, when the script starts in [g]: eighteen draws into the
    iteration for [allergens], then after each optional field. *)
Definition allergens_flip (n : nat) (g : PyRandom.rng) : PyRandom.rng :=
  PyRandom.advance 18 (state_at n g).

Definition skin_flip (n : nat) (g : PyRandom.rng) : PyRandom.rng :=
  after_optional (allergens_flip n g).

Definition hair_flip (n : nat) (g : PyRandom.rng) : PyRandom.rng :=
  after_optional (skin_flip n g).

Definition plain_cell (c : Pandas.cell) : Prop :=
  match c with
  | Some v => plain v
  | None => True
  end.

(** The line of the file that holds a row: its values under the declared
    columns, in the declared order. *)
Definition row_line (row : dict) : string :=
  Pandas.csv_record
    (map (fun c => Pandas.cell_str (dict_get c row)) Generator.all_columns).

(** The header line of the file. *)
Definition header_line : string := PyStr.join "," Generator.all_columns.

(** A number of tenths [d] whose double lies between the literals [3.5]
    and [5.0] and is printed with exactly one digit after the point. *)
Definition tenths_ok (d : Z) : bool :=
  PyFloat.leb Generator.lit_3_5 (PyFloat.of_ratio d 10)
  && PyFloat.leb (PyFloat.of_ratio d 10) Generator.lit_5_0
  && String.eqb (Pandas.cell_str (Some (VFloat (PyFloat.of_ratio d 10))))
                (PyStr.str_of_int (d / 10) ++ "."
                 ++ PyStr.str_of_int (d mod 10)).

(** A tape on which the three coins of the first row come out as [fa],
    [fs] and [fh]: a coin is [True] on an even word. *)
Definition coins_tape (fa fs fh : bool) (n : nat) : Z :=
  let second := (18 + if fa then 2 else 1)%nat in
  let third := (second + if fs then 2 else 1)%nat in
  if (n =? 18)%nat then (if fa then 0 else 1)
  else if (n =? second)%nat then (if fs then 0 else 1)
  else if (n =? third)%nat then (if fh then 0 else 1)
  else 0.

(** Exactly four characters, all of them decimal digits. *)
Definition four_digits (s : string) : bool :=
  (String.length s =? 4)%nat && all_digits s.

(** A row whose keys are the declared columns and whose integer cells sit
    in the integer columns. *)
Definition typed_row (row : dict) : Prop :=
  keys row = Generator.all_columns
  /\ map (fun kv => (fst kv, is_int (snd kv))) row
     = map (fun c => (c, existsb (String.eqb c) int_columns))
           Generator.all_columns.

(** A run used to instantiate the statements below. *)
Definition sample_tape (n : nat) : Z :=
  (Z.of_nat n * 2654435761 + 12345) * (Z.of_nat n + 7919).

Definition sample_rng : PyRandom.rng := PyRandom.mk_rng sample_tape 0.

End Checks.

(** ** The summary printed after the file is written *)

Module Reporter.
Import PyStr Pandas.

(** The position of a column name, as [Index.get_loc] finds it. *)
Fixpoint index_of (c : string) (cols : list string) : option nat :=
  match cols with
  | [] => None
  | c' :: rest =>
      if String.eqb c c' then Some O
      else option_map S (index_of c rest)
  end.

Fixpoint positions (names cols : list string) : option (list nat) :=
  match names with
  | [] => Some []
  | c :: rest =>
      match index_of c cols, positions rest cols with
      | Some j, Some js => Some (j :: js)
      | _, _ => None
      end
  end.

(** [df[names]]: the frame restricted to the listed columns, in the listed
    order; [None] stands for the [KeyError] raised when a name is not a
    column. *)
Definition getitem (df : DataFrame) (names : list string)
  : option DataFrame :=
  match positions names (columns df) with
  | Some js =>
      Some (mk_frame names
              (map (fun row => map (fun j => nth j row None) js) (data df)))
  | None => None
  end.

(** [df.head(n)]. *)
Definition head (n : nat) (df : DataFrame) : DataFrame :=
  mk_frame (columns df) (firstn n (data df)).

Definition preview_columns : list string :=
  ["name"; "category"; "images"; "price"; "brand"].

(** The frame whose text the last [print] shows:
    [df[['name', 'category', 'images', 'price', 'brand']].head(3)]. *)
Definition preview (df : DataFrame) : option DataFrame :=
  option_map (head 3) (getitem df preview_columns).

(** The symbols of the messages, as their UTF-8 bytes. *)
Definition check_mark : string :=
  String "226" (String "156" (String "133" EmptyString)).
Definition bar_chart : string :=
  String "240" (String "159" (String "147" (String "138" EmptyString))).
Definition wrench : string :=
  String "240" (String "159" (String "148" (String "167" EmptyString))).
Definition target : string :=
  String "240" (String "159" (String "142" (String "175" EmptyString))).
Definition arrow : string :=
  String "226" (String "134" (String "146" EmptyString)).

(** The arguments of the nine [print] calls that follow [to_csv], in
    order. *)
Definition messages (output_file : string) (df : DataFrame)
  (all_columns : list string) : list string :=
  [ check_mark ++ " " ++ output_file ++ " generated successfully!";
    bar_chart ++ " Total products: " ++ str_of_int (Z.of_nat (len df));
    wrench ++ " All "
      ++ str_of_int (Z.of_nat (List.length all_columns))
      ++ " CSV columns included";
    target ++ " Key fixes applied:";
    "   - Category: 'Protien' " ++ arrow ++ " 'Proteins'";
    "   - Spelling: 'Protien' " ++ arrow ++ " 'Protein' throughout";
    "   - All required CSV fields included";
    "   - Using existing image paths (protien1.jpg to protien9.jpg)";
    "   - Proper data types and validation-ready format" ].

End Reporter.

(** ** Further predicates on rows *)

Module RowShape.
Import PyStr PyRandom Generator Pandas.

(** Does the string hold a character that satisfies [p]? *)
Definition has (p : ascii -> bool) (s : string) : bool :=
  existsb p (chars s).

(** A predicate that holds of none of the characters numbers are written
    with. *)
Definition rejects_numeric (p : ascii -> bool) : Prop :=
  has p "0123456789-+.einfa" = false.

(** The columns whose cells are written between quotes. *)
Definition quoted_columns : list string :=
  ["tags"; "features"; "ingredients"; "careInstructions"; "keywords";
   "metaDescription"].

(** The text of the cell that holds a value. *)
Definition text (v : value) : string := cell_str (Some v).

(** The number of optional fields of a row that are filled. *)
Definition filled (row : dict) : nat :=
  List.length
    (filter (fun c => match dict_get c row with
                      | Some (VStr EmptyString) | None => false
                      | _ => true
                      end)
            ["allergens"; "skinType"; "hairType"]).

(** What else one iteration of the loop, started in state [g] with index
    [i], puts into its row. *)
Record row_more (i : Z) (g : rng) (row : dict) : Prop := {
  rm_name :
    dict_get "name" row
    = Some (VStr ("Protein Supplement " ++ str_of_int i));
  rm_texts :
    exists brand flavor,
      In brand brands /\ In flavor flavors
      /\ dict_get "brand" row = Some (VStr brand)
      /\ dict_get "scent" row = Some (VStr flavor)
      /\ dict_get "description" row
         = Some (VStr ("High-quality Protein supplement " ++ str_of_int i
                       ++ " ideal for muscle growth and recovery. " ++ flavor
                       ++ " flavor for gym and fitness enthusiasts."))
      /\ dict_get "features" row
         = Some (VStr ("Supports muscle growth,Boosts recovery,High Protein content,"
                       ++ flavor ++ " flavor"))
      /\ dict_get "metaTitle" row
         = Some (VStr (brand ++ " Protein Supplement " ++ str_of_int i
                       ++ " - " ++ flavor))
      /\ dict_get "metaDescription" row
         = Some (VStr ("Buy " ++ brand ++ " " ++ flavor
                       ++ " Protein supplement " ++ str_of_int i
                       ++ " - premium protein for strength, muscle growth, and fitness."));
  rm_barcode :
    dict_get "barcode" row
    = Some (VStr (str_of_int
                    (100000000000
                     + tape g (14 + pos g)
                       mod (999999999999 - 100000000000 + 1))));
  rm_size :
    exists grams,
      500 <= grams <= 2000
      /\ dict_get "size" row = Some (VStr (str_of_int grams ++ "g"));
  rm_rating :
    dict_get "rating" row
    = Some (VFloat
              (PyFloat.round
                 (PyFloat.add lit_3_5
                    (PyFloat.mul (PyFloat.sub lit_5_0 lit_3_5)
                       (PyFloat.ldexp (tape g (3 + pos g) mod 2 ^ 53) (-53))))
                 1));
  rm_choices :
    exists manufacturer country cert diet gender age season,
      In manufacturer manufacturers /\ In country countries
      /\ In cert certifications /\ In diet dietary_info
      /\ In gender genders /\ In age age_groups /\ In season seasons
      /\ dict_get "manufacturer" row = Some (VStr manufacturer)
      /\ dict_get "countryOfOrigin" row = Some (VStr country)
      /\ dict_get "certifications" row = Some (VStr cert)
      /\ dict_get "dietaryInfo" row = Some (VStr diet)
      /\ dict_get "gender" row = Some (VStr gender)
      /\ dict_get "ageGroup" row = Some (VStr age)
      /\ dict_get "season" row = Some (VStr season);
  rm_flags :
    exists is_new is_bestseller is_featured,
      In is_new ["TRUE"; "FALSE"] /\ In is_bestseller ["TRUE"; "FALSE"]
      /\ In is_featured ["TRUE"; "FALSE"]
      /\ dict_get "isNewProduct" row = Some (VStr is_new)
      /\ dict_get "isBestseller" row = Some (VStr is_bestseller)
      /\ dict_get "isFeatured" row = Some (VStr is_featured);
  rm_constants :
    dict_get "subcategory" row = Some (VStr "Health Supplement")
    /\ dict_get "tags" row
       = Some (VStr "Protein,supplement,gym,fitness,muscle")
    /\ dict_get "ingredients" row
       = Some (VStr "Whey Protein Concentrate,Whey Protein Isolate,BCAAs,Digestive Enzymes")
    /\ dict_get "color" row = Some (VStr "N/A")
    /\ dict_get "material" row = Some (VStr "Plastic Jar")
    /\ dict_get "careInstructions" row
       = Some (VStr "Store in a cool dry place,Keep away from moisture")
    /\ dict_get "keywords" row
       = Some (VStr "Protein,health,supplement,gym,fitness,muscle")
    /\ dict_get "spf" row = Some (VStr EmptyString);
  rm_quoting :
    Forall (fun kv =>
              has special (text (snd kv))
              = existsb (String.eqb (fst kv)) quoted_columns
              /\ has (Ascii.eqb dquote) (text (snd kv)) = false)
           row
}.

(** The path of the image file number [k]. *)
Definition image_path (k : Z) : string :=
  "uploads/products/protien" ++ str_of_int k ++ ".jpg".

(** Does the row show the image file number [k]? *)
Definition shows (k : Z) (row : dict) : bool :=
  match dict_get "images" row with
  | Some (VStr s) => String.eqb s (image_path k)
  | _ => false
  end.

(** Equality of two doubles, as data. *)
Definition same_float (x y : PyFloat.float) : bool :=
  match x, y with
  | S754_zero a, S754_zero b => Bool.eqb a b
  | S754_infinity a, S754_infinity b => Bool.eqb a b
  | S754_nan, S754_nan => true
  | S754_finite a m e, S754_finite b n f =>
      Bool.eqb a b && Pos.eqb m n && Z.eqb e f
  | _, _ => false
  end.

(** The rating computed from the entropy word [w]. *)
Definition rating_of_word (w : Z) : PyFloat.float :=
  PyFloat.round
    (PyFloat.add lit_3_5
       (PyFloat.mul (PyFloat.sub lit_5_0 lit_3_5)
          (PyFloat.ldexp (w mod 2 ^ 53) (-53))))
    1.

(** The word of entropy that yields the rating [d / 10] ([35 <= d <= 50]). *)
Definition word_for_tenths (d : Z) : Z :=
  Z.min ((d - 35) * 2 ^ 53 / 15) (2 ^ 53 - 1).

(** A field between quotes. *)
Definition quoted (s : string) : string :=
  String dquote (s ++ String dquote EmptyString).

(** The field of a row under the column [c] when the cells of the
    [quoted_columns], and no others, are put between quotes. *)
Definition shown_field (row : dict) (c : string) : string :=
  if existsb (String.eqb c) quoted_columns
  then quoted (cell_str (dict_get c row))
  else cell_str (dict_get c row).

(** The cells of a record under the listed columns. *)
Definition cells_of (cols : list string) (row : dict) : list cell :=
  map (fun c => dict_get c row) cols.

End RowShape.

(** * Properties *)

(** ** Running the [random] primitives *)

Section RandomFacts.
Import PyRandom.

Lemma randbelow_range n g :
  0 < n -> 0 <= tape g (pos g) mod n < n.
Proof. intros Hn. apply Z.mod_pos_bound. exact Hn. Qed.

Lemma bind_randint {B} a b (k : Z -> M B) g :
  (0 <? b - a + 1) = true ->
  bind (randint a b) k g
  = k (a + tape g (pos g) mod (b - a + 1)) (advance 1 g).
Proof.
  intros H. unfold randint. rewrite H. reflexivity.
Qed.

Lemma randint_range a b g :
  (0 <? b - a + 1) = true ->
  a <= a + tape g (pos g) mod (b - a + 1) <= b.
Proof.
  intros H. apply Z.ltb_lt in H.
  pose proof (randbelow_range (b - a + 1) g H). lia.
Qed.

Lemma bind_choice {A B} (x : A) l (k : A -> M B) g :
  bind (choice (x :: l)) k g = k (pick x l g) (advance 1 g).
Proof. reflexivity. Qed.

Lemma pick_In {A} (x : A) l g : In (pick x l g) (x :: l).
Proof.
  unfold pick. apply nth_In.
  pose proof (randbelow_range (Z.of_nat (List.length (x :: l))) g) as H.
  cbn [List.length] in *. lia.
Qed.

Lemma pick_forallb {A} (p : A -> bool) (x : A) l g :
  forallb p (x :: l) = true -> p (pick x l g) = true.
Proof.
  intros H. rewrite forallb_forall in H. apply H, pick_In.
Qed.

Lemma choice_coin g : Checks.coin g = pick true [false] g.
Proof. reflexivity. Qed.

Lemma bind_uniform {B} a b (k : PyFloat.float -> M B) g :
  bind (uniform a b) k g
  = k (PyFloat.add a
         (PyFloat.mul (PyFloat.sub b a)
            (PyFloat.ldexp (tape g (pos g) mod 2 ^ 53) (-53))))
      (advance 1 g).
Proof. reflexivity. Qed.

Lemma advance_advance n m g : advance n (advance m g) = advance (n + m) g.
Proof. unfold advance. cbn. f_equal. lia. Qed.

End RandomFacts.

(** ** One iteration of the loop *)

Section RowFacts.
Import PyStr PyRandom Generator Checks.

Lemma bind_optional {B} x l (k : string -> M B) g :
  bind (optional (x :: l)) k g
  = k (optional_value x l g) (after_optional g).
Proof.
  unfold optional, optional_value, after_optional.
  unfold bind at 1. rewrite bind_choice.
  change (pick true [false] g) with (coin g).
  destruct (coin g); cbv beta iota.
  - change (bind (choice (x :: l)) k (advance 1 g)
            = k (pick x l (advance 1 g)) (advance 2 g)).
    rewrite bind_choice, advance_advance. reflexivity.
  - reflexivity.
Qed.

Lemma chars_append a b : chars (a ++ b) = (chars a ++ chars b)%list.
Proof. induction a as [|c a IH]; cbn; [reflexivity | now rewrite IH]. Qed.

Lemma no_lf_append a b : no_lf (a ++ b) = no_lf a && no_lf b.
Proof.
  unfold no_lf, contains. rewrite chars_append, existsb_app.
  apply negb_orb.
Qed.

Lemma no_lf_String c s :
  no_lf (String c s) = negb (Ascii.eqb Pandas.LF c) && no_lf s.
Proof. unfold no_lf, contains. cbn [chars existsb]. apply negb_orb. Qed.

Lemma no_lf_uint d : no_lf (NilEmpty.string_of_uint d) = true.
Proof.
  induction d; cbn [NilEmpty.string_of_uint];
    [reflexivity | rewrite no_lf_String, IHd; reflexivity ..].
Qed.

Lemma no_lf_str_of_int z : no_lf (str_of_int z) = true.
Proof.
  unfold str_of_int, NilZero.string_of_int, NilZero.string_of_uint.
  destruct (Z.to_int z) as [d|d]; destruct d;
    try reflexivity; try apply no_lf_uint;
    rewrite no_lf_String; try apply no_lf_uint;
    cbn [negb andb]; try reflexivity.
Qed.

Lemma no_lf_replicate n :
  no_lf (replicate n "0") = true.
Proof.
  induction n as [|n IH]; [reflexivity|].
  cbn [replicate]. rewrite no_lf_String, IH. reflexivity.
Qed.

Lemma no_lf_format_0d w z : no_lf (format_0d w z) = true.
Proof.
  unfold format_0d. rewrite !no_lf_append, no_lf_replicate, no_lf_str_of_int.
  destruct (z <? 0); reflexivity.
Qed.

Lemma no_lf_optional_value x l g :
  forallb no_lf (x :: l) = true -> no_lf (optional_value x l g) = true.
Proof.
  intros H. unfold optional_value. destruct (coin g).
  - apply pick_forallb, H.
  - reflexivity.
Qed.

Lemma no_lf_pick x l g :
  forallb no_lf (x :: l) = true -> no_lf (pick x l g) = true.
Proof. apply pick_forallb. Qed.

Ltac no_lf_tac :=
  lazymatch goal with
  | |- no_lf (_ ++ _) = true =>
      rewrite no_lf_append; apply andb_true_intro; split; no_lf_tac
  | |- no_lf (str_of_int _) = true => apply no_lf_str_of_int
  | |- no_lf (format_0d _ _) = true => apply no_lf_format_0d
  | |- no_lf (pick _ _ _) = true => apply no_lf_pick; reflexivity
  | |- no_lf (optional_value _ _ _) = true =>
      apply no_lf_optional_value; reflexivity
  | |- True => exact I
  | |- _ => reflexivity
  end.

(** Every iteration returns a row, and the row is as [row_facts] says. *)
Lemma gen_row_run i g :
  exists row, gen_row i g = Ok row (after_row g) /\ row_facts i g row.
Proof.
  unfold gen_row. cbv zeta.
  unfold brands, manufacturers, countries, flavors, certifications,
    dietary_info, genders, age_groups, allergens, skin_types, hair_types,
    seasons.
  repeat first [ rewrite bind_randint by reflexivity
               | rewrite bind_choice
               | rewrite bind_uniform
               | rewrite bind_optional
               | progress cbv beta ].
  eexists. split; [reflexivity|].
  constructor.
  - reflexivity.
  - do 2 eexists. split; [reflexivity|]. split; [reflexivity|].
    split; apply randint_range; reflexivity.
  - eexists. split; [reflexivity|]. apply randint_range; reflexivity.
  - eexists. split; [|reflexivity]. apply randbelow_range. reflexivity.
  - eexists. split; [reflexivity|]. apply randint_range; reflexivity.
  - reflexivity.
  - reflexivity.
  - reflexivity.
  - reflexivity.
  - reflexivity.
  - reflexivity.
  - reflexivity.
  - eexists. split; [reflexivity|]. apply randint_range; reflexivity.
  - repeat (apply Forall_cons; [cbn [snd plain]; no_lf_tac|]).
    apply Forall_nil.
  - reflexivity.
Qed.

End RowFacts.

(** ** The loop and the whole run *)

Section LoopFacts.
Import PyRandom Generator Checks Pandas Script.

Lemma range_length a b : List.length (range a b) = Z.to_nat (b - a).
Proof. unfold range. now rewrite length_map, length_seq. Qed.

Lemma range_nth a b n :
  (n < Z.to_nat (b - a))%nat ->
  nth_error (range a b) n = Some (a + Z.of_nat n).
Proof.
  intros H. unfold range.
  rewrite nth_error_map, nth_error_seq.
  apply Nat.ltb_lt in H. rewrite H. reflexivity.
Qed.

Lemma for_each_run indices :
  forall acc g,
  exists rows,
    for_each indices acc g
    = Ok (acc ++ rows)%list (state_at (List.length indices) g)
    /\ List.length rows = List.length indices
    /\ forall n i, nth_error indices n = Some i ->
         exists row, nth_error rows n = Some row
                     /\ row_facts i (state_at n g) row.
Proof.
  induction indices as [|i rest IH]; intros acc g.
  - exists []. rewrite app_nil_r. repeat split.
    intros [|n] j H; discriminate H.
  - destruct (gen_row_run i g) as (row & Hrun & Hrow).
    destruct (IH (acc ++ [row])%list (after_row g))
      as (rows & Hrest & Hlen & Hnth).
    exists (row :: rows). split; [|split].
    + cbn [for_each]. unfold bind. rewrite Hrun, Hrest.
      rewrite <- app_assoc. cbn [List.length]. unfold state_at.
      rewrite Nat.iter_succ_r. reflexivity.
    + cbn [List.length]. now rewrite Hlen.
    + intros [|n] j H; cbn [nth_error] in *.
      * injection H as <-. exists row. split; [reflexivity | exact Hrow].
      * destruct (Hnth n j H) as (r & Hr & Hf). exists r.
        split; [exact Hr|]. unfold state_at in *.
        rewrite Nat.iter_succ_r. exact Hf.
Qed.

(** The loop always completes, with 400 rows; row number [n] (from 0) is
    the one built for index [n + 1] in state [state_at n g]. *)
Lemma generate_run g :
  exists rows,
    generate g = Ok rows (state_at 400 g)
    /\ List.length rows = 400%nat
    /\ forall n, (n < 400)%nat ->
         exists row, nth_error rows n = Some row
                     /\ row_facts (Z.of_nat n + 1) (state_at n g) row.
Proof.
  destruct (for_each_run (range 1 401) [] g) as (rows & Hrun & Hlen & Hnth).
  rewrite range_length in Hrun, Hlen.
  change (Z.to_nat (401 - 1)) with 400%nat in *.
  exists rows. split; [exact Hrun|]. split; [exact Hlen|].
  intros n Hn. destruct (Hnth n (1 + Z.of_nat n)) as (row & Hr & Hf).
  - apply range_nth. exact Hn.
  - exists row. split; [exact Hr|]. now rewrite Z.add_comm.
Qed.

Lemma main_run g :
  exists rows,
    main g = Ok (mk_outcome rows (from_records rows all_columns)
                   output_file (to_csv (from_records rows all_columns)))
                (state_at 400 g)
    /\ List.length rows = 400%nat
    /\ forall n, (n < 400)%nat ->
         exists row, nth_error rows n = Some row
                     /\ row_facts (Z.of_nat n + 1) (state_at n g) row.
Proof.
  destruct (generate_run g) as (rows & Hrun & Hrest).
  exists rows. split; [|exact Hrest].
  unfold main, bind. rewrite Hrun. reflexivity.
Qed.

(** Every row of a run satisfies what [row_facts] implies for all
    indices and states. *)
Lemma rows_Forall (P : dict -> Prop) rows (g : rng) :
  List.length rows = 400%nat ->
  (forall n, (n < 400)%nat ->
     exists row, nth_error rows n = Some row
                 /\ row_facts (Z.of_nat n + 1) (state_at n g) row) ->
  (forall i gi row, row_facts i gi row -> P row) ->
  Forall P rows.
Proof.
  intros Hlen Hnth HP. apply Forall_forall. intros row Hin.
  apply In_nth_error in Hin as (n & Hn).
  assert (n < 400)%nat as Hlt.
  { rewrite <- Hlen. apply nth_error_Some. congruence. }
  destruct (Hnth n Hlt) as (row' & Hr & Hf).
  assert (row' = row) as -> by congruence.
  eapply HP, Hf.
Qed.

End LoopFacts.

(** ** Zero-padded decimal numbers *)

Section DecimalFacts.
Import PyStr Generator Checks.

Lemma replicate_zero_uint k d :
  replicate k "0" ++ NilEmpty.string_of_uint d
  = NilEmpty.string_of_uint (Nat.iter k D0 d).
Proof.
  induction k as [|k IH]; [reflexivity|].
  cbn [replicate Nat.iter NilEmpty.string_of_uint append]. now rewrite IH.
Qed.

Lemma of_uint_leading_zeros k d :
  Pos.of_uint (Nat.iter k D0 d) = Pos.of_uint d.
Proof. induction k as [|k IH]; [reflexivity | exact IH]. Qed.

(** The digits of a non-negative integer, as [str] prints them. *)
Lemma str_of_int_uint z :
  0 <= z ->
  exists d, str_of_int z = NilEmpty.string_of_uint d
            /\ Pos.of_uint d = Z.to_N z.
Proof.
  intros Hz. destruct z as [|p|p]; [| |lia].
  - exists (D0 Nil). split; reflexivity.
  - exists (Pos.to_uint p). split.
    + unfold str_of_int, NilZero.string_of_int, NilZero.string_of_uint.
      cbn [Z.to_int].
      pose proof (DecimalPos.Unsigned.to_uint_nonnil p) as Hn.
      destruct (Pos.to_uint p); [contradiction | reflexivity ..].
    + apply DecimalPos.Unsigned.of_to.
Qed.

(** Reading back a zero-padded non-negative number gives the number. *)
Lemma decimal_value_format_0d w z :
  0 <= z -> decimal_value (format_0d w z) = Some z.
Proof.
  intros Hz. unfold format_0d.
  assert ((z <? 0) = false) as -> by lia.
  rewrite Z.abs_eq by exact Hz.
  destruct (str_of_int_uint z Hz) as (d & -> & Hd).
  cbn [append]. rewrite replicate_zero_uint.
  unfold decimal_value. rewrite NilEmpty.usu. cbn [option_map].
  unfold Z.of_uint. rewrite of_uint_leading_zeros, Hd.
  f_equal. lia.
Qed.

Lemma format_0d_inj w x y :
  0 <= x -> 0 <= y -> format_0d w x = format_0d w y -> x = y.
Proof.
  intros Hx Hy H.
  pose proof (decimal_value_format_0d w x Hx) as Ex.
  rewrite H, (decimal_value_format_0d w y Hy) in Ex. congruence.
Qed.

Lemma range_In a b i : a <= i < b -> In i (range a b).
Proof.
  intros H. unfold range. apply in_map_iff.
  exists (Z.to_nat (i - a)). split; [lia|].
  apply in_seq. lia.
Qed.

Lemma four_digits_loop_indices :
  forallb (fun i => four_digits (format_0d 4 i)) (range 1 401) = true.
Proof. vm_compute. reflexivity. Qed.

Lemma four_digits_index i :
  1 <= i <= 400 ->
  String.length (format_0d 4 i) = 4%nat /\ all_digits (format_0d 4 i) = true.
Proof.
  intros Hi. pose proof four_digits_loop_indices as H.
  rewrite forallb_forall in H.
  specialize (H i (range_In 1 401 i ltac:(lia))).
  unfold four_digits in H. apply andb_prop in H as [Hl Hd].
  apply Nat.eqb_eq in Hl. split; assumption.
Qed.

End DecimalFacts.

(** ** The serialised file *)

Section CsvFacts.
Import PyStr PyFloat Checks Pandas.

Lemma append_nil_r s : s ++ EmptyString = s.
Proof. induction s as [|c s IH]; cbn; [reflexivity | now rewrite IH]. Qed.

Lemma append_assoc a b c : (a ++ b) ++ c = a ++ b ++ c.
Proof. induction a as [|x a IH]; cbn; [reflexivity | now rewrite IH]. Qed.

Lemma no_lf_digit d s : no_lf (String (FloatRepr.digit_char d) s) = no_lf s.
Proof.
  rewrite no_lf_String. destruct d as [|p|p]; try reflexivity.
  do 4 (try destruct p as [p|p|]; try reflexivity).
Qed.

Lemma no_lf_digits_str ds : no_lf (FloatRepr.digits_str ds) = true.
Proof.
  induction ds as [|d ds IH]; [reflexivity|].
  cbn [FloatRepr.digits_str]. now rewrite no_lf_digit.
Qed.

Lemma no_lf_zeros n : no_lf (FloatRepr.zeros n) = true.
Proof. apply no_lf_replicate. Qed.

Lemma no_lf_exponent_str x : no_lf (FloatRepr.exponent_str x) = true.
Proof.
  unfold FloatRepr.exponent_str.
  rewrite !no_lf_append, no_lf_str_of_int.
  destruct (x <? 0), (Z.abs x <? 10); reflexivity.
Qed.

Lemma no_lf_layout ds k : no_lf (FloatRepr.layout ds k) = true.
Proof.
  unfold FloatRepr.layout.
  destruct ((k <=? -4) || (16 <? k)).
  - destruct ds as [|d [|d' rest]]; [reflexivity | |];
      rewrite !no_lf_append, !no_lf_digits_str, no_lf_exponent_str;
      reflexivity.
  - destruct (k <=? 0); [|destruct (_ <=? k)];
      rewrite !no_lf_append, ?no_lf_digits_str, ?no_lf_zeros; reflexivity.
Qed.

Lemma no_lf_repr x : no_lf (FloatRepr.repr x) = true.
Proof.
  destruct x as [sg|sg| |sg m e]; cbn [FloatRepr.repr];
    try (destruct sg; reflexivity); try reflexivity.
  destruct (FloatRepr.shortest (Z.pos m) e) as [ds k].
  rewrite no_lf_append, no_lf_layout. destruct sg; reflexivity.
Qed.

Lemma no_lf_cell_str as_float c :
  plain_cell c -> no_lf (cell_str (store as_float c)) = true.
Proof.
  destruct c as [[s|z|x]|]; cbn [plain_cell plain store]; intros H.
  - exact H.
  - destruct as_float; cbn [cell_str].
    + destruct (ldexp z 0); try reflexivity; apply no_lf_repr.
    + apply no_lf_str_of_int.
  - cbn [cell_str]. destruct x; try reflexivity; apply no_lf_repr.
  - reflexivity.
Qed.

Lemma no_lf_double_quotes s : no_lf (double_quotes s) = no_lf s.
Proof.
  induction s as [|c s IH]; [reflexivity|].
  cbn [double_quotes]. destruct (Ascii.eqb c dquote) eqn:E.
  - apply Ascii.eqb_eq in E. subst c.
    rewrite !no_lf_String, IH. reflexivity.
  - rewrite !no_lf_String, IH. reflexivity.
Qed.

Lemma no_lf_csv_field s : no_lf s = true -> no_lf (csv_field s) = true.
Proof.
  intros H. unfold csv_field. destruct (needs_quoting s); [|exact H].
  rewrite no_lf_String, no_lf_append, no_lf_double_quotes, H. reflexivity.
Qed.

Lemma no_lf_join sep fields :
  no_lf sep = true ->
  Forall (fun f => no_lf f = true) fields ->
  no_lf (join sep fields) = true.
Proof.
  intros Hsep H. induction H as [|f rest Hf Hrest IH]; [reflexivity|].
  cbn [join]. destruct rest as [|f' rest']; [exact Hf|].
  rewrite !no_lf_append, Hf, Hsep, IH. reflexivity.
Qed.

Lemma no_lf_csv_record fields :
  Forall (fun f => no_lf f = true) fields ->
  no_lf (csv_record fields) = true.
Proof.
  intros H. unfold csv_record.
  assert (no_lf (join "," (map csv_field fields)) = true) as Hj.
  { apply no_lf_join; [reflexivity|].
    apply Forall_map. revert H. apply Forall_impl.
    intros f. apply no_lf_csv_field. }
  destruct fields as [|[|c f] [|f' rest]]; exact Hj.
Qed.

(** Splitting text at line feeds. *)
Lemma lines_from_no_lf s cur rest :
  no_lf s = true ->
  lines_from cur (s ++ rest) = lines_from (cur ++ s) rest.
Proof.
  revert cur. induction s as [|c s IH]; intros cur H.
  - now rewrite append_nil_r.
  - rewrite no_lf_String in H. apply andb_prop in H as [Hc Hs].
    cbn [append lines_from]. rewrite Ascii.eqb_sym.
    apply negb_true_iff in Hc. rewrite Hc.
    rewrite IH by exact Hs. now rewrite append_assoc.
Qed.

Lemma concat_empty_cons x xs :
  String.concat EmptyString (x :: xs) = x ++ String.concat EmptyString xs.
Proof.
  destruct xs as [|y ys]; [cbn; now rewrite append_nil_r | reflexivity].
Qed.

Lemma lines_terminated records :
  Forall (fun r => no_lf r = true) records ->
  lines (String.concat EmptyString (map terminate records)) = records.
Proof.
  unfold lines. intros H. induction H as [|r rest Hr Hrest IH].
  - reflexivity.
  - cbn [map]. rewrite concat_empty_cons. unfold terminate at 1.
    rewrite append_assoc, lines_from_no_lf by exact Hr.
    cbn [append lines_from]. rewrite Ascii.eqb_refl, IH. reflexivity.
Qed.

(** *** Looking up keys *)

Lemma dict_get_plain c row :
  Forall (fun kv => plain (snd kv)) row -> plain_cell (dict_get c row).
Proof.
  intros H. induction H as [|[k v] rest Hv Hrest IH]; [exact I|].
  cbn [dict_get]. destruct (String.eqb c k); [exact Hv | exact IH].
Qed.

Lemma dict_get_In c row v : dict_get c row = Some v -> In c (keys row).
Proof.
  induction row as [|[k w] rest IH]; [discriminate|].
  cbn [dict_get keys map fst]. destruct (String.eqb c k) eqn:E.
  - apply String.eqb_eq in E. intros _. left. now symmetry.
  - intros H. right. apply IH, H.
Qed.

Lemma In_dict_get c row : In c (keys row) -> exists v, dict_get c row = Some v.
Proof.
  induction row as [|[k w] rest IH]; [intros []|].
  cbn [dict_get keys map fst]. intros H.
  destruct (String.eqb c k) eqn:E; [now exists w|].
  destruct H as [H|H]; [|apply IH, H].
  subst k. rewrite String.eqb_refl in E. discriminate E.
Qed.

Lemma dict_get_tagged {T} (f : value -> T) (h : string -> T) row cols :
  map (fun kv => (fst kv, f (snd kv))) row = map (fun c => (c, h c)) cols ->
  forall c v, dict_get c row = Some v -> f v = h c.
Proof.
  revert cols. induction row as [|[k w] rest IH]; intros cols Heq c v Hget;
    [discriminate|].
  destruct cols as [|c0 cols]; [discriminate|].
  cbn [map fst snd] in Heq. injection Heq as Hk Hw Hrest.
  cbn [dict_get] in Hget. destruct (String.eqb c k) eqn:E.
  - apply String.eqb_eq in E. congruence.
  - eapply IH; eassumption.
Qed.

Lemma dict_get_perm c row row' :
  NoDup (keys row) -> Permutation row row' ->
  dict_get c row' = dict_get c row.
Proof.
  intros Hnd Hperm. induction Hperm as [|[k v] l l' Hp IH
                                       |[k1 v1] [k2 v2] l
                                       |l l' l'' Hp1 IH1 Hp2 IH2].
  - reflexivity.
  - cbn [dict_get]. rewrite IH; [reflexivity|].
    cbn [keys map] in Hnd. now inversion Hnd.
  - cbn [dict_get].
    destruct (String.eqb c k1) eqn:E1, (String.eqb c k2) eqn:E2;
      try reflexivity.
    apply String.eqb_eq in E1, E2. subst k1 k2.
    cbn [keys map fst] in Hnd. inversion Hnd as [|? ? Hnot ?].
    exfalso. apply Hnot. now left.
  - rewrite IH2, IH1; [reflexivity | exact Hnd |].
    unfold keys in *. eapply Permutation_NoDup; [|exact Hnd].
    apply Permutation_map, Hp1.
Qed.

(** *** The frame built from the rows *)

Lemma data_from_records records cols :
  data (from_records records cols)
  = map (fun rec =>
           map (fun c =>
                  store (float_column (map (dict_get c) records))
                        (dict_get c rec))
               cols)
        records.
Proof.
  unfold from_records. cbn [data]. apply map_ext. intros rec.
  rewrite map_map. reflexivity.
Qed.

Lemma from_records_ext records records' cols :
  Forall2 (fun r r' => forall c, dict_get c r' = dict_get c r)
          records records' ->
  from_records records' cols = from_records records cols.
Proof.
  intros H.
  assert (forall c, map (dict_get c) records' = map (dict_get c) records)
    as Hcol.
  { intros c. induction H as [|r r' rs rs' Hr Hrs IH]; [reflexivity|].
    cbn [map]. now rewrite Hr, IH. }
  unfold from_records. f_equal.
  assert (map (fun c => (c, float_column (map (dict_get c) records'))) cols
          = map (fun c => (c, float_column (map (dict_get c) records))) cols)
    as ->.
  { apply map_ext. intros c. now rewrite Hcol. }
  clear Hcol.
  generalize (map (fun c => (c, float_column (map (dict_get c) records)))
                  cols) as dtypes.
  intros dtypes. induction H as [|r r' rs rs' Hr Hrs IH]; [reflexivity|].
  cbn [map]. rewrite IH. f_equal. apply map_ext. intros [c fl]. now rewrite Hr.
Qed.

Lemma existsb_none {A} (p : A -> bool) l :
  (forall x, In x l -> p x = false) -> existsb p l = false.
Proof.
  induction l as [|x l IH]; intros H; [reflexivity|].
  cbn [existsb]. rewrite (H x (or_introl eq_refl)), IH; [reflexivity|].
  intros y Hy. apply H. now right.
Qed.

(** On such rows every column keeps the cells as the rows hold them. *)
Lemma store_typed records rec c :
  Forall typed_row records -> In rec records ->
  store (float_column (map (dict_get c) records)) (dict_get c rec)
  = dict_get c rec.
Proof.
  intros Hall Hin.
  destruct (dict_get c rec) as [[s|z|x]|] eqn:Hget; try reflexivity.
  cbn [store].
  assert (float_column (map (dict_get c) records) = false) as ->;
    [|reflexivity].
  unfold float_column. apply andb_false_intro2. apply existsb_none.
  intros cell Hcell. apply in_map_iff in Hcell as (r & <- & Hr).
  rewrite Forall_forall in Hall.
  destruct (Hall rec Hin) as [Hk Ht]. destruct (Hall r Hr) as [Hk' Ht'].
  pose proof (dict_get_tagged _ _ _ _ Ht c _ Hget) as Hc. cbn [is_int] in Hc.
  assert (In c (keys r)) as Hkey.
  { rewrite Hk', <- Hk. eapply dict_get_In, Hget. }
  destruct (In_dict_get _ _ Hkey) as (v & Hv). rewrite Hv.
  pose proof (dict_get_tagged _ _ _ _ Ht' c _ Hv) as Hc'.
  assert (is_int v = true) as Hint by (cbv beta in Hc, Hc'; congruence).
  destruct v; [discriminate | reflexivity | discriminate].
Qed.

Lemma data_typed records cols :
  Forall typed_row records ->
  data (from_records records cols)
  = map (fun rec => map (fun c => dict_get c rec) cols) records.
Proof.
  intros Hall. rewrite data_from_records.
  apply map_ext_in. intros rec Hin. apply map_ext. intros c.
  apply store_typed; assumption.
Qed.

Lemma store_false c : store false c = c.
Proof. destruct c as [[s|z|x]|]; reflexivity. Qed.

Lemma no_lf_row_line row :
  Forall (fun kv => plain (snd kv)) row -> no_lf (row_line row) = true.
Proof.
  intros H. unfold row_line. apply no_lf_csv_record, Forall_map.
  apply Forall_forall. intros c _.
  rewrite <- (store_false (dict_get c row)).
  apply no_lf_cell_str, dict_get_plain, H.
Qed.

(** The lines of the file written for typed rows without line feeds. *)
Lemma csv_of_rows rows :
  Forall typed_row rows ->
  Forall (fun row => Forall (fun kv => plain (snd kv)) row) rows ->
  csv_records (from_records rows Generator.all_columns)
  = header_line :: map row_line rows
  /\ lines (to_csv (from_records rows Generator.all_columns))
     = header_line :: map row_line rows.
Proof.
  intros Htyped Hplain.
  assert (csv_records (from_records rows Generator.all_columns)
          = header_line :: map row_line rows) as Hrec.
  { unfold csv_records. rewrite data_typed by exact Htyped.
    rewrite map_map. f_equal. }
  split; [exact Hrec|].
  unfold to_csv. rewrite Hrec. apply lines_terminated.
  apply Forall_cons; [vm_compute; reflexivity|].
  apply Forall_map. revert Hplain. apply Forall_impl.
  intros row. apply no_lf_row_line.
Qed.

End CsvFacts.

(** ** Rounding in binary64 *)

Section Binary64Facts.
Import PyFloat Generator.

Lemma digits2_bounds p :
  2 ^ (Zpos (digits2_pos p) - 1) <= Zpos p < 2 ^ Zpos (digits2_pos p).
Proof.
  induction p as [p IH|p IH|]; cbn [digits2_pos].
  - rewrite Pos2Z.inj_succ.
    replace (Z.succ (Zpos (digits2_pos p)) - 1)
      with (Z.succ (Zpos (digits2_pos p) - 1)) by lia.
    rewrite !Z.pow_succ_r by lia. lia.
  - rewrite Pos2Z.inj_succ.
    replace (Z.succ (Zpos (digits2_pos p)) - 1)
      with (Z.succ (Zpos (digits2_pos p) - 1)) by lia.
    rewrite !Z.pow_succ_r by lia. lia.
  - cbn. lia.
Qed.

Lemma digits2_above k p : 0 <= k -> 2 ^ k <= Zpos p -> k < Zpos (digits2_pos p).
Proof.
  intros Hk H. destruct (digits2_bounds p) as [_ Hu].
  apply (Z.pow_lt_mono_r_iff 2); lia.
Qed.

Lemma digits2_below k p : 0 <= k -> Zpos p < 2 ^ k -> Zpos (digits2_pos p) <= k.
Proof.
  intros Hk H. destruct (digits2_bounds p) as [Hl _].
  assert (Zpos (digits2_pos p) - 1 < k); [|lia].
  apply (Z.pow_lt_mono_r_iff 2); lia.
Qed.

Lemma digits2_unique k p :
  2 ^ (k - 1) <= Zpos p < 2 ^ k -> Zpos (digits2_pos p) = k.
Proof.
  intros [Hl Hu].
  assert (0 < k) as Hk.
  { destruct (Z.lt_ge_cases 0 k) as [|Hle]; [assumption|].
    rewrite (Z.pow_neg_r 2 (k - 1)) in Hl by lia.
    destruct (Z.eq_dec k 0) as [->|]; [cbn in Hu; lia|].
    rewrite Z.pow_neg_r in Hu by lia. lia. }
  pose proof (digits2_above (k - 1) p ltac:(lia) Hl).
  pose proof (digits2_below k p ltac:(lia) Hu). lia.
Qed.

Lemma iter_pos_nat {A} (f : A -> A) n x :
  iter_pos f n x = Nat.iter (Pos.to_nat n) f x.
Proof.
  revert x. induction n as [n IH|n IH|]; intros x; cbn [iter_pos].
  - rewrite !IH, Pos2Nat.inj_xI, <- Nat.iter_add, <- Nat.iter_succ_r.
    f_equal. lia.
  - rewrite !IH, Pos2Nat.inj_xO, <- Nat.iter_add. f_equal. lia.
  - reflexivity.
Qed.

Lemma shr_1_nonneg m r s :
  0 <= m ->
  shr_1 (Build_shr_record m r s)
  = Build_shr_record (m / 2) (Z.odd m) (r || s).
Proof.
  intros Hm. rewrite <- Z.div2_div.
  destruct m as [|[p|p|]|p]; try reflexivity. lia.
Qed.

Lemma shr_iter n m :
  0 <= m ->
  shr_m (Nat.iter n shr_1 (Build_shr_record m false false))
  = m / 2 ^ Z.of_nat n
  /\ (m mod 2 ^ Z.of_nat n = 0 ->
      shr_r (Nat.iter n shr_1 (Build_shr_record m false false)) = false
      /\ shr_s (Nat.iter n shr_1 (Build_shr_record m false false)) = false).
Proof.
  intros Hm. induction n as [|n IH].
  - cbn. rewrite Z.div_1_r. auto.
  - rewrite Nat.iter_succ.
    destruct (Nat.iter n shr_1 _) as [q r s]. cbn [shr_m shr_r shr_s] in IH.
    destruct IH as [Hq Hrs].
    assert (0 < 2 ^ Z.of_nat n) as Hpow by (apply Z.pow_pos_nonneg; lia).
    assert (0 <= q) as Hq0 by (subst q; apply Z.div_pos; lia).
    rewrite shr_1_nonneg by exact Hq0. cbn [shr_m shr_r shr_s].
    rewrite Nat2Z.inj_succ, Z.pow_succ_r by lia.
    split.
    + subst q. rewrite Z.div_div by lia. f_equal. lia.
    + intros Hmod.
      assert (m mod 2 ^ Z.of_nat n = 0 /\ Z.odd q = false) as [H0 Hodd].
      { assert (exists c, m = (2 * c) * 2 ^ Z.of_nat n) as [c Hc].
        { exists (m / (2 * 2 ^ Z.of_nat n)).
          pose proof (Z.div_mod m (2 * 2 ^ Z.of_nat n) ltac:(lia)) as E.
          rewrite Hmod in E. lia. }
        subst q. rewrite Hc, Z.mod_mul, Z.div_mul by lia.
        split; [reflexivity|]. rewrite Z.odd_mul. reflexivity. }
      destruct (Hrs H0) as [-> ->]. rewrite Hodd. auto.
Qed.

Lemma rne_bounds rec :
  shr_m rec <= round_nearest_even (shr_m rec) (loc_of_shr_record rec)
            <= shr_m rec + 1
  /\ (shr_r rec = false -> shr_s rec = false ->
      round_nearest_even (shr_m rec) (loc_of_shr_record rec) = shr_m rec).
Proof.
  destruct rec as [q [|] [|]]; cbn [shr_m shr_r shr_s loc_of_shr_record round_nearest_even];
    try destruct (Z.even q); split; try lia; try discriminate; auto.
Qed.

Lemma fexp_normal x : -1074 <= x - 53 -> fexp prec emax x = x - 53.
Proof. intros H. unfold fexp, emin, prec, emax. lia. Qed.

(** The second half of [binary_round_aux]: a rounded mantissa that reached
    [2^53] is brought back to 53 bits. *)
Lemma renormalize m1 e1 :
  2 ^ 52 <= Zpos m1 <= 2 ^ 53 -> -1074 <= e1 <= 970 ->
  exists m' e',
    (let '(mrs, e2) := shr_fexp prec emax (Zpos m1) e1 loc_Exact in
     match shr_m mrs with
     | Z0 => S754_zero false
     | Zpos m => if e2 <=? emax - prec then S754_finite false m e2
                 else S754_infinity false
     | Zneg _ => S754_nan
     end) = S754_finite false m' e'
    /\ Zpos (digits2_pos m') = 53
    /\ e1 <= e' <= e1 + 1
    /\ Zpos m' * 2 ^ (e' - e1) = Zpos m1.
Proof.
  intros [Hlo Hhi] He.
  destruct (Z.eq_dec (Zpos m1) (2 ^ 53)) as [E|E].
  - exists (4503599627370496)%positive, (e1 + 1).
    injection E as ->. unfold shr_fexp.
    change (Zdigits2 (Z.pos 9007199254740992)) with 54.
    rewrite fexp_normal by lia.
    replace (54 + e1 - 53 - e1) with 1 by lia.
    cbn [shr_record_of_loc shr iter_pos shr_1 shr_m].
    assert ((e1 + 1 <=? emax - prec) = true) as ->
        by (unfold emax, prec; lia).
    split; [reflexivity|]. split; [reflexivity|]. split; [lia|].
    replace (e1 + 1 - e1) with 1 by lia. reflexivity.
  - exists m1, e1.
    assert (Zpos (digits2_pos m1) = 53) as Hd
        by (apply digits2_unique; change (53 - 1) with 52; lia).
    unfold shr_fexp. cbn [Zdigits2]. rewrite Hd.
    rewrite fexp_normal by lia.
    replace (53 + e1 - 53 - e1) with 0 by lia.
    cbn [shr_record_of_loc shr shr_m].
    assert ((e1 <=? emax - prec) = true) as -> by (unfold emax, prec; lia).
    split; [reflexivity|]. split; [reflexivity|]. split; [lia|].
    rewrite Z.sub_diag. lia.
Qed.

(** Rounding a positive [m * 2^e] with at least 53 significant bits to
    binary64, away from underflow and overflow: the result is a normal
    double, and it stays between any two bounds that lie on the grid of
    the rounded exponent. *)
Lemma round_aux_sandwich m e :
  53 <= Zpos (digits2_pos m) ->
  -1074 <= e + (Zpos (digits2_pos m) - 53) <= 970 ->
  exists m' e',
    binary_round_aux prec emax false (Zpos m) e loc_Exact
    = S754_finite false m' e'
    /\ Zpos (digits2_pos m') = 53
    /\ e + (Zpos (digits2_pos m) - 53) <= e'
       <= e + (Zpos (digits2_pos m) - 53) + 1
    /\ forall L U,
         L * 2 ^ (Zpos (digits2_pos m) - 53) <= Zpos m
                                             <= U * 2 ^ (Zpos (digits2_pos m) - 53) ->
         L <= Zpos m' * 2 ^ (e' - (e + (Zpos (digits2_pos m) - 53))) <= U.
Proof.
  intros HN He.
  pose proof (digits2_bounds m) as Hm.
  set (N := Zpos (digits2_pos m)) in *.
  set (s := N - 53) in *.
  assert (0 < 2 ^ s) as Hpow by (apply Z.pow_pos_nonneg; lia).
  (* the first shift *)
  assert (exists rec1,
             shr_fexp prec emax (Zpos m) e loc_Exact = (rec1, e + s)
             /\ shr_m rec1 = Zpos m / 2 ^ s
             /\ (Zpos m mod 2 ^ s = 0 ->
                 shr_r rec1 = false /\ shr_s rec1 = false))
    as (rec1 & Hshr & Hq & Hexact).
  { unfold shr_fexp. cbn [Zdigits2]. fold N.
    rewrite fexp_normal by (unfold s in He; lia).
    replace (N + e - 53 - e) with s by (unfold s; lia).
    cbn [shr_record_of_loc].
    destruct s as [|sp|sp] eqn:Es; [| |lia].
    - rewrite Z.add_0_r. eexists. split; [reflexivity|].
      cbn [shr_m shr_r shr_s]. change (2 ^ 0) with 1.
      rewrite Z.div_1_r. auto.
    - cbn [shr]. rewrite iter_pos_nat.
      destruct (shr_iter (Pos.to_nat sp) (Zpos m) ltac:(lia)) as [H1 H2].
      rewrite positive_nat_Z in H1, H2.
      eexists. split; [reflexivity|]. split; assumption. }
  (* the rounded mantissa *)
  destruct (rne_bounds rec1) as [Hrne Hrne0].
  remember (round_nearest_even (shr_m rec1) (loc_of_shr_record rec1))
    as m1 eqn:Em1.
  rewrite Hq in Hrne, Hrne0.
  assert (2 ^ 52 <= Zpos m / 2 ^ s < 2 ^ 53) as Hqr.
  { assert (2 ^ (N - 1) = 2 ^ 52 * 2 ^ s) as E1
        by (rewrite <- Z.pow_add_r by lia; f_equal; unfold s; lia).
    assert (2 ^ N = 2 ^ 53 * 2 ^ s) as E2
        by (rewrite <- Z.pow_add_r by lia; f_equal; unfold s; lia).
    split.
    - apply Z.div_le_lower_bound; lia.
    - apply Z.div_lt_upper_bound; lia. }
  destruct m1 as [|p1|p1]; [lia| |lia].
  destruct (renormalize p1 (e + s)) as (m' & e' & Hres & Hd & He' & Hval);
    [lia | lia |].
  exists m', e'. split; [|split; [exact Hd|split; [exact He'|]]].
  - unfold binary_round_aux. rewrite Hshr, <- Em1. exact Hres.
  - intros L U [HL HU]. rewrite Hval.
    pose proof (Z.div_mod (Zpos m) (2 ^ s) ltac:(lia)) as Hdm.
    pose proof (Z.mod_pos_bound (Zpos m) (2 ^ s) Hpow) as Hmod.
    remember (Zpos m / 2 ^ s) as q eqn:Eq.
    remember (Zpos m mod 2 ^ s) as r eqn:Er.
    split.
    + assert (L <= q) by (subst q; apply Z.div_le_lower_bound; lia). lia.
    + assert (q <= U) as HqU by nia.
      destruct (Z.eq_dec q U) as [E|Hne]; [|lia].
      assert (r = 0) as Hr0 by nia.
      destruct (Hexact Hr0) as [Hr Hs].
      specialize (Hrne0 Hr Hs). lia.
Qed.

Lemma pow2_split a b : 0 <= a -> 0 <= b -> 2 ^ (a + b) = 2 ^ a * 2 ^ b.
Proof. intros. apply Z.pow_add_r; assumption. Qed.

Lemma pow2_pos a : 0 <= a -> 0 < 2 ^ a.
Proof. intros. apply Z.pow_pos_nonneg; lia. Qed.

(** The same, with the values scaled by [2^K] to make them integers. *)
Lemma round_aux_scaled K m e L U :
  53 <= Zpos (digits2_pos m) ->
  -1074 <= e + (Zpos (digits2_pos m) - 53) <= 970 ->
  0 <= e + K ->
  (2 ^ (e + (Zpos (digits2_pos m) - 53) + K) | L) ->
  (2 ^ (e + (Zpos (digits2_pos m) - 53) + K) | U) ->
  L <= Zpos m * 2 ^ (e + K) <= U ->
  exists m' e',
    binary_round_aux prec emax false (Zpos m) e loc_Exact
    = S754_finite false m' e'
    /\ Zpos (digits2_pos m') = 53
    /\ e + (Zpos (digits2_pos m) - 53) <= e'
       <= e + (Zpos (digits2_pos m) - 53) + 1
    /\ L <= Zpos m' * 2 ^ (e' + K) <= U.
Proof.
  intros HN He HK [l HL] [u HU] Hval.
  destruct (round_aux_sandwich m e HN He) as (m' & e' & Hres & Hd & He' & Hb).
  exists m', e'. repeat (split; [assumption|]).
  set (s := Zpos (digits2_pos m) - 53) in *.
  pose proof (pow2_pos s ltac:(lia)) as Hs.
  pose proof (pow2_pos (e + K) HK) as HeK.
  assert (2 ^ (e + s + K) = 2 ^ s * 2 ^ (e + K)) as EG
      by (rewrite <- pow2_split by lia; f_equal; lia).
  assert (2 ^ (e' + K) = 2 ^ (e' - (e + s)) * (2 ^ s * 2 ^ (e + K))) as EV
      by (rewrite <- !pow2_split by lia; f_equal; lia).
  rewrite EG in HL, HU. subst L U. rewrite EV.
  destruct (Hb l u) as [Hl Hu]; [nia|].
  pose proof (pow2_pos (e' - (e + s)) ltac:(lia)).
  split; nia.
Qed.

Lemma iter_xO p d : Zpos (Pos.iter xO p d) = Zpos p * 2 ^ Zpos d.
Proof.
  induction d as [|d IH] using Pos.peano_ind.
  - cbn [Pos.iter]. rewrite Pos2Z.inj_xO. change (2 ^ 1) with 2. lia.
  - rewrite Pos.iter_succ, Pos2Z.inj_xO, IH, Pos2Z.inj_succ,
      Z.pow_succ_r by lia. lia.
Qed.

Lemma exponent_below m e K B :
  Zpos (digits2_pos m) = 53 -> 0 <= e + K -> 0 <= B ->
  Zpos m * 2 ^ (e + K) < 2 ^ B -> e + K + 52 < B.
Proof.
  intros Hd HK HB H. pose proof (digits2_bounds m) as [Hl _].
  rewrite Hd in Hl. change (53 - 1) with 52 in Hl.
  pose proof (pow2_pos (e + K) HK).
  apply (Z.pow_lt_mono_r_iff 2); [lia | lia |].
  rewrite Z.add_comm, pow2_split by lia. nia.
Qed.

Lemma pow2_divide a b c : 0 <= a <= b -> (2 ^ a | c * 2 ^ b).
Proof.
  intros H. exists (c * 2 ^ (b - a)).
  rewrite <- Z.mul_assoc, <- pow2_split by lia. do 2 f_equal. lia.
Qed.

(** [random.random()]: the double [p / 2^53]. *)
Lemma random_float p :
  Zpos p < 2 ^ 53 ->
  exists mr er,
    ldexp (Zpos p) (-53) = S754_finite false mr er
    /\ Zpos (digits2_pos mr) = 53
    /\ -105 <= er <= -53
    /\ Zpos mr * 2 ^ (er + 200) = Zpos p * 2 ^ 147.
Proof.
  intros Hp.
  pose proof (digits2_bounds p) as Hb.
  pose proof (digits2_below 53 p ltac:(lia) Hp) as Hn.
  assert (0 < Zpos (digits2_pos p)) as Hn0 by lia.
  set (n := Zpos (digits2_pos p)) in *.
  assert (exists mz ez,
             shl_align p (-53) (fexp prec emax (n + -53)) = (mz, ez)
             /\ ez = n - 106 /\ Zpos mz = Zpos p * 2 ^ (53 - n))
    as (mz & ez & Hal & Hez & Hmz).
  { rewrite fexp_normal by lia. unfold shl_align.
    destruct (n + -53 - 53 - -53) as [|d|d] eqn:Ed; [| lia |].
    - exists p, (-53). split; [reflexivity|].
      replace (53 - n) with 0 by lia. lia.
    - eexists _, _. split; [reflexivity|]. split; [lia|].
      rewrite iter_xO. do 2 f_equal. lia. }
  assert (2 ^ 52 <= Zpos mz < 2 ^ 53) as Hmzb.
  { rewrite Hmz.
    assert (2 ^ 52 = 2 ^ (n - 1) * 2 ^ (53 - n)) as ->
        by (rewrite <- pow2_split by lia; f_equal; lia).
    assert (2 ^ 53 = 2 ^ n * 2 ^ (53 - n)) as ->
        by (rewrite <- pow2_split by lia; f_equal; lia).
    pose proof (pow2_pos (53 - n) ltac:(lia)). nia. }
  assert (Zpos (digits2_pos mz) = 53) as Hdz
      by (apply digits2_unique; change (53 - 1) with 52; exact Hmzb).
  assert (Zpos mz * 2 ^ (ez + 200) = Zpos p * 2 ^ 147) as Hvz.
  { rewrite Hmz, <- Z.mul_assoc, <- pow2_split by lia.
    do 2 f_equal. lia. }
  destruct (round_aux_scaled 200 mz ez (Zpos p * 2 ^ 147) (Zpos p * 2 ^ 147))
    as (mr & er & Hres & Hd & Her & Hv).
  - lia.
  - lia.
  - lia.
  - apply pow2_divide. lia.
  - apply pow2_divide. lia.
  - lia.
  - exists mr, er. split.
    + unfold ldexp. cbn [binary_normalize]. unfold binary_round.
      fold n. rewrite Hal. exact Hres.
    + split; [exact Hd|]. split; [|lia].
      assert (er + 200 + 52 < 200); [|lia].
      apply (exponent_below mr er 200 200 Hd); lia.
Qed.

(** [1.5 * r] for a double [r] in [(0, 1)]. *)
Lemma mul_step p mr er :
  Zpos p < 2 ^ 53 ->
  Zpos (digits2_pos mr) = 53 ->
  -105 <= er <= -53 ->
  Zpos mr * 2 ^ (er + 200) = Zpos p * 2 ^ 147 ->
  exists mt et,
    mul (S754_finite false 6755399441055744 (-52)) (S754_finite false mr er)
    = S754_finite false mt et
    /\ Zpos (digits2_pos mt) = 53
    /\ -105 <= et <= -52
    /\ Zpos mt * 2 ^ (et + 200) <= 3 * 2 ^ 199.
Proof.
  intros Hp Hd Her Hv.
  pose proof (digits2_bounds mr) as Hmr. rewrite Hd in Hmr.
  change (53 - 1) with 52 in Hmr.
  set (m := (6755399441055744 * mr)%positive).
  assert (Zpos m = 3 * 2 ^ 51 * Zpos mr) as Hm by (unfold m; lia).
  assert (105 <= Zpos (digits2_pos m) <= 106) as HN.
  { split.
    - assert (104 < Zpos (digits2_pos m)); [|lia].
      apply digits2_above; lia.
    - apply digits2_below; lia. }
  assert (Zpos m * 2 ^ (-52 + er + 200) = 3 * Zpos p * 2 ^ 146) as Hval.
  { assert (2 * (Zpos m * 2 ^ (-52 + er + 200)) = 2 * (3 * Zpos p * 2 ^ 146));
      [|lia].
    assert (2 ^ (er + 200) = 2 ^ 52 * 2 ^ (-52 + er + 200)) as E
        by (rewrite <- pow2_split by lia; f_equal; lia).
    rewrite E in Hv. rewrite Hm. nia. }
  destruct (round_aux_scaled 200 m (-52 + er) 0 (3 * 2 ^ 199))
    as (mt & et & Hres & Hdt & Het & Hvt).
  - lia.
  - lia.
  - lia.
  - apply Z.divide_0_r.
  - apply pow2_divide. lia.
  - rewrite Hval. lia.
  - exists mt, et. split; [exact Hres|]. split; [exact Hdt|].
    split; [|lia]. split; [lia|].
    assert (et + 200 + 52 < 201); [|lia].
    apply (exponent_below mt et 200 201 Hdt); lia.
Qed.

(** [3.5 + t] for a double [t] in [(0, 1.5]]. *)
Lemma add_step mt et :
  Zpos (digits2_pos mt) = 53 ->
  -105 <= et <= -52 ->
  Zpos mt * 2 ^ (et + 200) <= 3 * 2 ^ 199 ->
  exists mx ex,
    add (S754_finite false 7881299347898368 (-51)) (S754_finite false mt et)
    = S754_finite false mx ex
    /\ -51 <= ex <= -50
    /\ 7 * 2 ^ 199 <= Zpos mx * 2 ^ (ex + 200) <= 5 * 2 ^ 200.
Proof.
  intros Hd Het Hv.
  assert (exists a, shl_align 7881299347898368 (-51) et = (a, et)
                    /\ Zpos a * 2 ^ (et + 200) = 7 * 2 ^ 199)
    as (a & Hal & Ha).
  { unfold shl_align. destruct (et - -51) as [|d|d] eqn:Ed; [lia|lia|].
    eexists. split; [reflexivity|]. rewrite iter_xO.
    change (Z.pos 7881299347898368) with (7 * 2 ^ 50).
    rewrite <- !Z.mul_assoc, <- !pow2_split by lia.
    do 2 f_equal. lia. }
  set (m := (a + mt)%positive).
  assert (Zpos m * 2 ^ (et + 200) = 7 * 2 ^ 199 + Zpos mt * 2 ^ (et + 200))
    as Hm by (unfold m; lia).
  pose proof (pow2_pos (et + 200) ltac:(lia)) as Hpw.
  assert (55 <= Zpos (digits2_pos m) + et + 53 <= 56) as HN.
  { pose proof (digits2_bounds m) as [Hl Hu].
    split.
    - assert (201 < Zpos (digits2_pos m) + (et + 200)); [|lia].
      apply (Z.pow_lt_mono_r_iff 2); [lia|lia|].
      rewrite pow2_split by lia. nia.
    - assert (Zpos (digits2_pos m) - 1 + (et + 200) < 203); [|lia].
      apply (Z.pow_lt_mono_r_iff 2); [lia|lia|].
      rewrite pow2_split by lia. nia. }
  destruct (round_aux_scaled 200 m et (7 * 2 ^ 199) (5 * 2 ^ 200))
    as (mx & ex & Hres & Hdx & Hex & Hvx).
  - lia.
  - lia.
  - lia.
  - apply pow2_divide. lia.
  - apply pow2_divide. lia.
  - lia.
  - exists mx, ex. split; [|split; [|exact Hvx]].
    + unfold add, SFadd. rewrite Z.min_r by lia.
      rewrite Hal. unfold shl_align at 1. rewrite Z.sub_diag.
      cbn [fst cond_Zopp Z.add binary_normalize]. fold m.
      unfold binary_round, shl_align.
      rewrite fexp_normal by lia.
      destruct (Zpos (digits2_pos m) + et - 53 - et) as [|d|d] eqn:Ed;
        [lia| |lia].
      exact Hres.
    + split; [lia|].
      assert (ex + 200 + 52 < 203); [|lia].
      apply (exponent_below mx ex 200 203 Hdx); lia.
Qed.

Lemma div_half_even_bounds n D lo hi :
  0 < D -> lo * D <= n <= hi * D -> lo <= div_half_even n D <= hi.
Proof.
  intros HD [Hl Hu]. unfold div_half_even.
  pose proof (Z.div_mod n D ltac:(lia)) as Hdm.
  pose proof (Z.mod_pos_bound n D HD) as Hmod.
  remember (n / D) as q eqn:Eq. remember (n mod D) as r eqn:Er.
  assert (lo <= q) by nia. assert (q <= hi) by nia.
  destruct (Z.eq_dec q hi) as [E|E].
  - assert (r = 0) as -> by nia.
    assert ((2 * 0 ?= D) = Lt) as -> by (apply Z.compare_lt_iff; lia). lia.
  - destruct (2 * r ?= D); [destruct (Z.even q)| |]; lia.
Qed.

(** [round(x, 1)] for a double [x] in [[3.5, 5.0]]. *)
Lemma round_step mx ex :
  -51 <= ex <= -50 ->
  7 * 2 ^ 199 <= Zpos mx * 2 ^ (ex + 200) <= 5 * 2 ^ 200 ->
  exists d, 35 <= d <= 50
            /\ round (S754_finite false mx ex) 1 = of_ratio d 10.
Proof.
  intros Hex Hv.
  assert (ex = -51 \/ ex = -50) as [-> | ->] by lia.
  - change (-51 + 200) with 149 in Hv.
    pose proof (div_half_even_bounds (Zpos mx * 10) (2 ^ 51) 35 50
                  ltac:(lia) ltac:(lia)) as Hq.
    exists (div_half_even (Zpos mx * 10) (2 ^ 51)). split; [exact Hq|].
    unfold round. change (0 <=? -51) with false. cbv iota.
    change (10 ^ Z.of_nat 1) with 10. change (- -51) with 51.
    destruct (div_half_even (Zpos mx * 10) (2 ^ 51)); [lia| |lia].
    reflexivity.
  - change (-50 + 200) with 150 in Hv.
    pose proof (div_half_even_bounds (Zpos mx * 10) (2 ^ 50) 35 50
                  ltac:(lia) ltac:(lia)) as Hq.
    exists (div_half_even (Zpos mx * 10) (2 ^ 50)). split; [exact Hq|].
    unfold round. change (0 <=? -50) with false. cbv iota.
    change (10 ^ Z.of_nat 1) with 10. change (- -50) with 50.
    destruct (div_half_even (Zpos mx * 10) (2 ^ 50)); [lia| |lia].
    reflexivity.
Qed.

Lemma lit_3_5_eq : lit_3_5 = S754_finite false 7881299347898368 (-51).
Proof. vm_compute. reflexivity. Qed.

Lemma width_eq :
  sub lit_5_0 lit_3_5 = S754_finite false 6755399441055744 (-52).
Proof. vm_compute. reflexivity. Qed.

(** The rating of a row is a whole number of tenths between 3.5 and 5.0,
    whatever the entropy word [k] behind [random.uniform]. *)
Lemma rating_tenths k :
  0 <= k < 2 ^ 53 ->
  exists d,
    35 <= d <= 50
    /\ round (add lit_3_5 (mul (sub lit_5_0 lit_3_5) (ldexp k (-53)))) 1
       = of_ratio d 10.
Proof.
  intros Hk. rewrite width_eq, lit_3_5_eq.
  destruct k as [|p|p]; [| |lia].
  - exists 35. split; [lia|]. vm_compute. reflexivity.
  - destruct (random_float p ltac:(lia)) as (mr & er & -> & Hdr & Her & Hvr).
    destruct (mul_step p mr er ltac:(lia) Hdr Her Hvr)
      as (mt & et & -> & Hdt & Het & Hvt).
    destruct (add_step mt et Hdt Het Hvt) as (mx & ex & -> & Hex & Hvx).
    exact (round_step mx ex Hex Hvx).
Qed.

End Binary64Facts.

(** ** The claims *)

Section Claims.
Import PyStr PyRandom Generator Checks Pandas Script.

Lemma row_facts_typed i gi row : row_facts i gi row -> typed_row row.
Proof.
  intros Hf. split; [apply (rf_keys _ _ _ Hf) | apply (rf_ints _ _ _ Hf)].
Qed.

Lemma run_rows_typed rows (g : rng) :
  List.length rows = 400%nat ->
  (forall n, (n < 400)%nat ->
     exists row, nth_error rows n = Some row
                 /\ row_facts (Z.of_nat n + 1) (state_at n g) row) ->
  Forall typed_row rows.
Proof.
  intros Hlen Hnth. eapply rows_Forall; [exact Hlen | exact Hnth |].
  apply row_facts_typed.
Qed.

Lemma run_rows_plain rows (g : rng) :
  List.length rows = 400%nat ->
  (forall n, (n < 400)%nat ->
     exists row, nth_error rows n = Some row
                 /\ row_facts (Z.of_nat n + 1) (state_at n g) row) ->
  Forall (fun row => Forall (fun kv => plain (snd kv)) row) rows.
Proof.
  intros Hlen Hnth. eapply rows_Forall; [exact Hlen | exact Hnth |].
  intros i gi row Hf. exact (rf_plain _ _ _ Hf).
Qed.

(** In every run, every row satisfies what each iteration guarantees. *)
Lemma main_rows (P : dict -> Prop) g :
  (forall i gi row, row_facts i gi row -> P row) ->
  exists out g',
    main g = Ok out g'
    /\ List.length (products out) = 400%nat
    /\ Forall P (products out).
Proof.
  intros HP. destruct (main_run g) as (rows & Hmain & Hlen & Hnth).
  eexists _, _. split; [exact Hmain|]. cbn [products].
  split; [exact Hlen|]. eapply rows_Forall; eassumption.
Qed.

(** In every run, the row at position [i - 1] is the one built for the
    index [i]. *)
Lemma main_row_at (P : Z -> dict -> Prop) g i :
  1 <= i <= 400 ->
  (forall gi row, row_facts i gi row -> P i row) ->
  exists out g' row,
    main g = Ok out g'
    /\ nth_error (products out) (Z.to_nat (i - 1)) = Some row
    /\ P i row.
Proof.
  intros Hi HP. destruct (main_run g) as (rows & Hmain & Hlen & Hnth).
  destruct (Hnth (Z.to_nat (i - 1))) as (row & Hr & Hf); [lia|].
  replace (Z.of_nat (Z.to_nat (i - 1)) + 1) with i in Hf by lia.
  eexists _, _, row. split; [exact Hmain|]. cbn [products].
  split; [exact Hr|]. eapply HP, Hf.
Qed.

(** C3. Every run completes with 400 records, and in each of them [price]
    is an integer in [999, 4999], [originalPrice] is [price] plus an
    integer in [200, 1000], and so [originalPrice] is strictly greater than
    [price]. *)
Theorem price_and_original_price (g : rng) :
  exists out g',
    main g = Ok out g'
    /\ List.length (products out) = 400%nat
    /\ Forall (fun row =>
                 exists price delta original,
                   dict_get "price" row = Some (VInt price)
                   /\ dict_get "originalPrice" row = Some (VInt original)
                   /\ 999 <= price <= 4999
                   /\ 200 <= delta <= 1000
                   /\ original = price + delta
                   /\ price < original)
              (products out).
Proof.
  apply main_rows. intros i gi row Hf.
  destruct (rf_price _ _ _ Hf) as (price & delta & Hp & Ho & Hpr & Hdr).
  exists price, delta, (price + delta). repeat split; try assumption; lia.
Qed.

(** C7. Every run completes with 400 records, and in each of them the
    [category] field is the literal string "Proteins", which differs from
    the misspelling "Protien". *)
Theorem category_is_proteins (g : rng) :
  exists out g',
    main g = Ok out g'
    /\ List.length (products out) = 400%nat
    /\ Forall (fun row =>
                 dict_get "category" row = Some (VStr "Proteins")
                 /\ dict_get "category" row <> Some (VStr "Protien"))
              (products out).
Proof.
  apply main_rows. intros i gi row Hf.
  rewrite (rf_category _ _ _ Hf). split; [reflexivity | discriminate].
Qed.

(** C9. Every run completes with 400 records, and in each of them
    [minOrderQuantity] is the integer 1 and [maxOrderQuantity] is an
    integer in [5, 20], so the minimum never exceeds the maximum. *)
Theorem order_quantities (g : rng) :
  exists out g',
    main g = Ok out g'
    /\ List.length (products out) = 400%nat
    /\ Forall (fun row =>
                 exists most,
                   dict_get "minOrderQuantity" row = Some (VInt 1)
                   /\ dict_get "maxOrderQuantity" row = Some (VInt most)
                   /\ 5 <= most <= 20
                   /\ 1 <= most)
              (products out).
Proof.
  apply main_rows. intros i gi row Hf.
  destruct (rf_max _ _ _ Hf) as (most & Hm & Hr).
  exists most. repeat split; try assumption; try apply (rf_min _ _ _ Hf); lia.
Qed.

(** C10. Every run completes with 400 records, and in each of them [stock]
    is an integer in [50, 300] and [reviewCount] is an integer in
    [50, 1000]. *)
Theorem stock_and_review_count (g : rng) :
  exists out g',
    main g = Ok out g'
    /\ List.length (products out) = 400%nat
    /\ Forall (fun row =>
                 exists stock reviews,
                   dict_get "stock" row = Some (VInt stock)
                   /\ dict_get "reviewCount" row = Some (VInt reviews)
                   /\ 50 <= stock <= 300
                   /\ 50 <= reviews <= 1000)
              (products out).
Proof.
  apply main_rows. intros i gi row Hf.
  destruct (rf_stock _ _ _ Hf) as (stock & Hs & Hsr).
  destruct (rf_reviews _ _ _ Hf) as (reviews & Hv & Hvr).
  exists stock, reviews. repeat split; try assumption; lia.
Qed.

(** C2, as the code has it. In every run and for every record index [i]
    in [1, 400], the record's [images] field is the string
    "uploads/products/protien" followed by [(i mod 9) + 1] followed by
    ".jpg". *)
Theorem images_path (g : rng) (i : Z) :
  1 <= i <= 400 ->
  exists out g' row,
    main g = Ok out g'
    /\ nth_error (products out) (Z.to_nat (i - 1)) = Some row
    /\ dict_get "images" row
       = Some (VStr ("uploads/products/protien"
                     ++ str_of_int (i mod 9 + 1) ++ ".jpg")).
Proof.
  intros Hi.
  apply (main_row_at
           (fun i row =>
              dict_get "images" row
              = Some (VStr ("uploads/products/protien"
                            ++ str_of_int (i mod 9 + 1) ++ ".jpg")))
           g i Hi).
  intros gi row Hf. exact (rf_images _ _ _ Hf).
Qed.

(** [images_path] at the first record of the sample run. *)
Lemma images_path_witness :
  1 <= 1 <= 400
  /\ exists out g' row,
       main sample_rng = Ok out g'
       /\ nth_error (products out) (Z.to_nat (1 - 1)) = Some row
       /\ dict_get "images" row
          = Some (VStr ("uploads/products/protien"
                        ++ str_of_int (1 mod 9 + 1) ++ ".jpg")).
Proof.
  split; [lia | apply (images_path sample_rng 1); lia].
Defined.

(** C2, as the claim has it, fails on the first record: for [i = 1] the
    claimed image number [((i - 1) mod 9) + 1] is 1, while the record
    holds "uploads/products/protien2.jpg". *)
Lemma images_path_claimed_formula_fails :
  exists out g' row,
    main sample_rng = Ok out g'
    /\ nth_error (products out) 0 = Some row
    /\ dict_get "images" row = Some (VStr "uploads/products/protien2.jpg")
    /\ dict_get "images" row
       <> Some (VStr ("uploads/products/protien"
                      ++ str_of_int ((1 - 1) mod 9 + 1) ++ ".jpg")).
Proof.
  apply (main_row_at
           (fun i row =>
              dict_get "images" row
              = Some (VStr "uploads/products/protien2.jpg")
              /\ dict_get "images" row
                 <> Some (VStr ("uploads/products/protien"
                                ++ str_of_int ((1 - 1) mod 9 + 1)
                                ++ ".jpg")))
           sample_rng 1); [lia|].
  intros gi row Hf. rewrite (rf_images _ _ _ Hf).
  split; [reflexivity | discriminate].
Qed.

(** C5. In every run and for every record index [i] in [1, 400], the
    record's [sku] is "PROT" followed by [i] zero-padded to exactly four
    decimal digits (four characters, all digits, denoting [i]); the skus of
    the 400 records are pairwise distinct; and the fifth record's [sku],
    which is also the cell of the frame's fifth row under the column
    [sku], is "PROT0005". *)
Theorem sku_format (g : rng) :
  exists out g',
    main g = Ok out g'
    /\ (forall i, 1 <= i <= 400 ->
         exists row digits,
           nth_error (products out) (Z.to_nat (i - 1)) = Some row
           /\ dict_get "sku" row = Some (VStr ("PROT" ++ digits))
           /\ digits = format_0d 4 i
           /\ String.length digits = 4%nat
           /\ all_digits digits = true
           /\ decimal_value digits = Some i)
    /\ NoDup (map (dict_get "sku") (products out))
    /\ (exists row cells,
          nth_error (products out) 4 = Some row
          /\ dict_get "sku" row = Some (VStr "PROT0005")
          /\ nth_error (data (df out)) 4 = Some cells
          /\ nth_error (columns (df out)) 17 = Some "sku"
          /\ nth_error cells 17 = Some (Some (VStr "PROT0005"))).
Proof.
  destruct (main_run g) as (rows & Hmain & Hlen & Hnth).
  eexists _, _. split; [exact Hmain|]. cbn [products df].
  split; [|split].
  - intros i Hi.
    destruct (Hnth (Z.to_nat (i - 1))) as (row & Hr & Hf); [lia|].
    replace (Z.of_nat (Z.to_nat (i - 1)) + 1) with i in Hf by lia.
    exists row, (format_0d 4 i).
    destruct (four_digits_index i Hi) as [Hl Hd].
    repeat split; try assumption.
    + exact (rf_sku _ _ _ Hf).
    + apply decimal_value_format_0d. lia.
  - apply NoDup_nth_error. rewrite length_map, Hlen.
    intros m n Hm Heq. rewrite !nth_error_map in Heq.
    destruct (Hnth m Hm) as (rm & Hrm & Hfm).
    rewrite Hrm in Heq. cbn [option_map] in Heq.
    destruct (nth_error rows n) as [rn|] eqn:Hrn; [|discriminate].
    assert (n < 400)%nat as Hn.
    { rewrite <- Hlen. apply nth_error_Some. congruence. }
    destruct (Hnth n Hn) as (rn' & Hrn' & Hfn).
    assert (rn' = rn) as -> by congruence.
    cbn [option_map] in Heq.
    rewrite (rf_sku _ _ _ Hfm), (rf_sku _ _ _ Hfn) in Heq.
    injection Heq as Heq. apply format_0d_inj in Heq; lia.
  - destruct (Hnth 4%nat) as (row & Hr & Hf); [lia|].
    pose proof (rf_sku _ _ _ Hf) as Hsku.
    change ("PROT" ++ format_0d 4 (Z.of_nat 4 + 1)) with "PROT0005" in Hsku.
    exists row, (map (fun c => dict_get c row) all_columns).
    split; [exact Hr|]. split; [exact Hsku|]. split; [|split].
    + rewrite data_typed by (eapply run_rows_typed; eassumption).
      exact (map_nth_error
               (fun rec => map (fun c => dict_get c rec) all_columns)
               4 rows Hr).
    + reflexivity.
    + rewrite <- Hsku. reflexivity.
Qed.

Lemma optional_value_spec x l g :
  forallb (fun c => negb (String.eqb c EmptyString)) (x :: l) = true ->
  let v := optional_value x l g in
  (v = EmptyString \/ In v (x :: l))
  /\ (In v (x :: l) <-> coin g = true)
  /\ (v = EmptyString <-> coin g = false).
Proof.
  intros Hne v. subst v. unfold optional_value.
  assert (~ In EmptyString (x :: l)) as Hnot.
  { intros Hin. rewrite forallb_forall in Hne. specialize (Hne _ Hin).
    discriminate Hne. }
  destruct (coin g).
  - pose proof (pick_In x l (advance 1 g)) as Hin.
    split; [right; exact Hin|]. split; split; intros H; try reflexivity.
    + exact Hin.
    + rewrite H in Hin. contradiction.
    + discriminate H.
  - split; [left; reflexivity|]. split; split; intros H; try reflexivity.
    + contradiction.
    + discriminate H.
Qed.

Lemma after_optional_pos g :
  (pos g < pos (after_optional g))%nat.
Proof. unfold after_optional. destruct (coin g); cbn; lia. Qed.

Lemma coins_tape_spec fa fs fh :
  let g := mk_rng (coins_tape fa fs fh) 0 in
  coin (allergens_flip 0 g) = fa
  /\ coin (skin_flip 0 g) = fs
  /\ coin (hair_flip 0 g) = fh.
Proof. destruct fa, fs, fh; repeat split; reflexivity. Qed.

(** C8. In every run and for every generated record, each of [allergens],
    [skinType] and [hairType] is the empty string or a member of its
    candidate list; it is a member exactly when its own
    [random.choice([True, False])] returned [True] and empty exactly when
    that coin returned [False]; and the three coins are three different
    draws of the entropy tape.  The coins do not constrain one another:
    each of the eight patterns of filled and empty fields occurs in the
    first record of some run. *)
Theorem optional_fields :
  (forall g : rng,
     exists out g',
       main g = Ok out g'
       /\ forall n row,
            nth_error (products out) n = Some row ->
            exists a s h,
              dict_get "allergens" row = Some (VStr a)
              /\ dict_get "skinType" row = Some (VStr s)
              /\ dict_get "hairType" row = Some (VStr h)
              /\ (a = EmptyString \/ In a allergens)
              /\ (s = EmptyString \/ In s skin_types)
              /\ (h = EmptyString \/ In h hair_types)
              /\ (In a allergens <-> coin (allergens_flip n g) = true)
              /\ (a = EmptyString <-> coin (allergens_flip n g) = false)
              /\ (In s skin_types <-> coin (skin_flip n g) = true)
              /\ (s = EmptyString <-> coin (skin_flip n g) = false)
              /\ (In h hair_types <-> coin (hair_flip n g) = true)
              /\ (h = EmptyString <-> coin (hair_flip n g) = false)
              /\ (pos (allergens_flip n g) < pos (skin_flip n g)
                   < pos (hair_flip n g))%nat)
  /\ (forall fa fs fh : bool,
        exists g out g' row a s h,
          main g = Ok out g'
          /\ nth_error (products out) 0 = Some row
          /\ dict_get "allergens" row = Some (VStr a)
          /\ dict_get "skinType" row = Some (VStr s)
          /\ dict_get "hairType" row = Some (VStr h)
          /\ (a = EmptyString <-> fa = false)
          /\ (s = EmptyString <-> fs = false)
          /\ (h = EmptyString <-> fh = false)).
Proof.
  assert (forall g n row,
             row_facts (Z.of_nat n + 1) (state_at n g) row ->
             exists a s h,
               dict_get "allergens" row = Some (VStr a)
               /\ dict_get "skinType" row = Some (VStr s)
               /\ dict_get "hairType" row = Some (VStr h)
               /\ (a = EmptyString \/ In a allergens)
               /\ (s = EmptyString \/ In s skin_types)
               /\ (h = EmptyString \/ In h hair_types)
               /\ (In a allergens <-> coin (allergens_flip n g) = true)
               /\ (a = EmptyString <-> coin (allergens_flip n g) = false)
               /\ (In s skin_types <-> coin (skin_flip n g) = true)
               /\ (s = EmptyString <-> coin (skin_flip n g) = false)
               /\ (In h hair_types <-> coin (hair_flip n g) = true)
               /\ (h = EmptyString <-> coin (hair_flip n g) = false)
               /\ (pos (allergens_flip n g) < pos (skin_flip n g)
                    < pos (hair_flip n g))%nat) as Hrow.
  { intros g n row Hf.
    unfold hair_flip, skin_flip, allergens_flip.
    set (ga := advance 18 (state_at n g)).
    pose proof (rf_allergens _ _ _ Hf) as Ha.
    pose proof (rf_skin _ _ _ Hf) as Hs.
    pose proof (rf_hair _ _ _ Hf) as Hh.
    fold ga in Ha, Hs, Hh.
    eexists _, _, _.
    split; [exact Ha|]. split; [exact Hs|]. split; [exact Hh|].
    destruct (optional_value_spec "nuts" ["dairy"; "gluten"; "soy"] ga
                eq_refl) as (A1 & A2 & A3).
    destruct (optional_value_spec "normal"
                ["dry"; "oily"; "combination"; "sensitive"]
                (after_optional ga) eq_refl) as (S1 & S2 & S3).
    destruct (optional_value_spec "straight"
                ["wavy"; "curly"; "fine"; "thick"]
                (after_optional (after_optional ga)) eq_refl)
      as (H1 & H2 & H3).
    repeat (split; [assumption|]).
    split; apply after_optional_pos. }
  split.
  - intros g. destruct (main_run g) as (rows & Hmain & Hlen & Hnth).
    eexists _, _. split; [exact Hmain|]. cbn [products].
    intros n row Hrow_n.
    assert (n < 400)%nat as Hn.
    { rewrite <- Hlen. apply nth_error_Some. congruence. }
    destruct (Hnth n Hn) as (row' & Hr & Hf).
    assert (row' = row) as -> by congruence.
    exact (Hrow g n row Hf).
  - intros fa fs fh.
    set (g := mk_rng (coins_tape fa fs fh) 0).
    destruct (main_run g) as (rows & Hmain & Hlen & Hnth).
    destruct (Hnth 0%nat ltac:(lia)) as (row & Hr & Hf).
    destruct (Hrow g 0%nat row Hf)
      as (a & s & h & Ha & Hs & Hh & _ & _ & _ & _ & A & _ & S & _ & H & _).
    destruct (coins_tape_spec fa fs fh) as (Ca & Cs & Ch). fold g in Ca, Cs, Ch.
    rewrite Ca in A. rewrite Cs in S. rewrite Ch in H.
    exists g. eexists _, _, row, a, s, h.
    split; [exact Hmain|]. cbn [products].
    repeat (split; [assumption|]). exact H.
Qed.

Lemma all_columns_NoDup : NoDup all_columns.
Proof.
  apply (NoDup_count_occ' String.string_dec).
  intros c Hc. unfold all_columns in *.
  repeat (destruct Hc as [<-|Hc]; [vm_compute; reflexivity|]).
  destruct Hc.
Qed.

(** C1, as the code has it. Every run completes with 400 records; every
    record has exactly the 40 declared keys, the optional fields being present with a
    string (possibly empty); the frame has the declared columns; the file's
    first line is the declared column names joined by commas and every
    following line holds one record's values in that declared order; and
    reordering the entries inside the row dictionaries changes neither the
    frame nor the file. *)
Theorem schema_and_column_order (g : rng) :
  exists out g',
    main g = Ok out g'
    /\ List.length (products out) = 400%nat
    /\ List.length all_columns = 40%nat
    /\ NoDup all_columns
    /\ Forall (fun row =>
                 keys row = all_columns
                 /\ exists a s h,
                      dict_get "allergens" row = Some (VStr a)
                      /\ dict_get "skinType" row = Some (VStr s)
                      /\ dict_get "hairType" row = Some (VStr h))
              (products out)
    /\ columns (df out) = all_columns
    /\ lines (written out) = header_line :: map row_line (products out)
    /\ forall shuffled,
         Forall2 (@Permutation (string * value)) (products out) shuffled ->
         from_records shuffled all_columns = df out
         /\ to_csv (from_records shuffled all_columns) = written out.
Proof.
  destruct (main_run g) as (rows & Hmain & Hlen & Hnth).
  eexists _, _. split; [exact Hmain|]. cbn [products df written].
  split; [exact Hlen|].
  split; [reflexivity|]. split; [exact all_columns_NoDup|].
  assert (Forall (fun row => exists i gi, row_facts i gi row) rows) as Hall.
  { eapply rows_Forall; [exact Hlen | exact Hnth |]. intros i gi row Hf.
    now exists i, gi. }
  split; [|split; [reflexivity|split]].
  - revert Hall. apply Forall_impl. intros row (i & gi & Hf).
    split; [exact (rf_keys _ _ _ Hf)|].
    eexists _, _, _. split; [exact (rf_allergens _ _ _ Hf)|].
    split; [exact (rf_skin _ _ _ Hf) | exact (rf_hair _ _ _ Hf)].
  - apply csv_of_rows.
    + eapply run_rows_typed; eassumption.
    + eapply run_rows_plain; eassumption.
  - intros shuffled Hperm.
    assert (from_records shuffled all_columns = from_records rows all_columns)
      as ->; [|split; reflexivity].
    apply from_records_ext.
    clear Hlen Hnth Hmain. induction Hperm as [|r r' rs rs' Hr Hrs IH];
      [constructor|].
    inversion Hall as [|? ? (i & gi & Hf) Hall']; subst.
    constructor; [|apply IH, Hall'].
    intros c. apply dict_get_perm; [|exact Hr].
    rewrite (rf_keys _ _ _ Hf). exact all_columns_NoDup.
Qed.

(** C1, as the claim has it, fails on the first record: it has 40 keys, not
    39. *)
Lemma schema_has_forty_keys_not_39 :
  exists out g' row,
    main sample_rng = Ok out g'
    /\ nth_error (products out) 0 = Some row
    /\ List.length (keys row) = 40%nat
    /\ List.length (keys row) <> 39%nat.
Proof.
  apply (main_row_at
           (fun _ row =>
              List.length (keys row) = 40%nat
              /\ List.length (keys row) <> 39%nat)
           sample_rng 1); [lia|].
  intros gi row Hf. rewrite (rf_keys _ _ _ Hf).
  split; [reflexivity | discriminate].
Qed.

(** C6. Every run produces exactly 400 records, and the file it writes has
    exactly 401 lines, each ended by a line feed: the header line first,
    then one line per record in the order of generation. *)
Theorem record_and_line_count (g : rng) :
  exists out g',
    main g = Ok out g'
    /\ List.length (products out) = 400%nat
    /\ len (df out) = 400%nat
    /\ List.length (lines (written out)) = 401%nat
    /\ lines (written out) = header_line :: map row_line (products out)
    /\ written out
       = String.concat EmptyString (map terminate (lines (written out))).
Proof.
  destruct (main_run g) as (rows & Hmain & Hlen & Hnth).
  eexists _, _. split; [exact Hmain|]. cbn [products df written].
  destruct (csv_of_rows rows) as [Hrec Hlines].
  { eapply run_rows_typed; eassumption. }
  { eapply run_rows_plain; eassumption. }
  split; [exact Hlen|]. split.
  { unfold len. rewrite data_from_records, length_map. exact Hlen. }
  split; [rewrite Hlines; cbn [List.length]; now rewrite length_map, Hlen|].
  split; [exact Hlines|].
  rewrite Hlines, <- Hrec. reflexivity.
Qed.

Lemma tenths_between_35_and_50 :
  forallb tenths_ok (range 35 51) = true.
Proof. vm_compute. reflexivity. Qed.

(** C4. Every run completes with 400 records, and in each of them [rating]
    is the double nearest to a whole number of tenths between 3.5 and 5.0:
    it compares between the literals [3.5] and [5.0], both ends allowed,
    and it is written with exactly one digit after the decimal point. *)
Theorem rating_range_and_precision (g : rng) :
  exists out g',
    main g = Ok out g'
    /\ List.length (products out) = 400%nat
    /\ Forall (fun row =>
                 exists tenths,
                   35 <= tenths <= 50
                   /\ dict_get "rating" row
                      = Some (VFloat (PyFloat.of_ratio tenths 10))
                   /\ PyFloat.leb lit_3_5 (PyFloat.of_ratio tenths 10) = true
                   /\ PyFloat.leb (PyFloat.of_ratio tenths 10) lit_5_0 = true
                   /\ cell_str (Some (VFloat (PyFloat.of_ratio tenths 10)))
                      = str_of_int (tenths / 10) ++ "."
                        ++ str_of_int (tenths mod 10))
              (products out).
Proof.
  apply main_rows. intros i gi row Hf.
  destruct (rf_rating _ _ _ Hf) as (k & Hk & Hget).
  destruct (rating_tenths k Hk) as (d & Hd & Hround).
  exists d. split; [exact Hd|]. rewrite Hget, Hround.
  split; [reflexivity|].
  pose proof tenths_between_35_and_50 as Hall.
  rewrite forallb_forall in Hall.
  specialize (Hall d (range_In 35 51 d ltac:(lia))).
  unfold tenths_ok in Hall.
  apply andb_prop in Hall as [Hall Hs]. apply andb_prop in Hall as [Hlo Hhi].
  apply String.eqb_eq in Hs. repeat split; assumption.
Qed.

End Claims.

(** * Further properties of the script *)

(** ** Characters of the generated texts *)

Section TextFacts.
Import PyStr PyRandom Generator Checks Pandas RowShape.

Lemma has_append p a b : has p (a ++ b) = has p a || has p b.
Proof. unfold has. now rewrite chars_append, existsb_app. Qed.

Lemma has_String p c s : has p (String c s) = p c || has p s.
Proof. reflexivity. Qed.

Lemma rejects_char p c :
  rejects_numeric p -> In c (chars "0123456789-+.einfa") -> p c = false.
Proof.
  intros Hp Hc. unfold rejects_numeric, has in Hp.
  destruct (p c) eqn:E; [|reflexivity].
  assert (existsb p (chars "0123456789-+.einfa") = true) as Hex
      by (apply existsb_exists; exists c; split; assumption).
  congruence.
Qed.

Ltac numeric_char :=
  match goal with
  | Hp : rejects_numeric ?p |- ?p ?c = false =>
      apply (rejects_char p c Hp); cbn [chars In]; tauto
  end.

Lemma has_uint p d :
  rejects_numeric p -> has p (NilEmpty.string_of_uint d) = false.
Proof.
  intros Hp.
  induction d; cbn [NilEmpty.string_of_uint]; [reflexivity|..];
    rewrite has_String, IHd, orb_false_r; numeric_char.
Qed.

Lemma has_str_of_int p z :
  rejects_numeric p -> has p (str_of_int z) = false.
Proof.
  intros Hp. pose proof (has_uint p) as Hu.
  assert (p "-"%char = false) as Hminus by numeric_char.
  assert (p "0"%char = false) as Hzero by numeric_char.
  unfold str_of_int, NilZero.string_of_int, NilZero.string_of_uint.
  destruct (Z.to_int z) as [d|d]; destruct d;
    rewrite ?has_String, ?Hminus, ?Hzero; cbn [orb];
    try reflexivity; try (apply (Hu _ Hp)).
Qed.

Lemma has_replicate_zero p n :
  rejects_numeric p -> has p (replicate n "0") = false.
Proof.
  intros Hp. induction n as [|n IH]; [reflexivity|].
  cbn [replicate]. rewrite has_String, IH, orb_false_r. numeric_char.
Qed.

Lemma has_format_0d p w z :
  rejects_numeric p -> has p (format_0d w z) = false.
Proof.
  intros Hp. unfold format_0d.
  rewrite !has_append, has_replicate_zero, has_str_of_int by exact Hp.
  destruct (z <? 0); [|reflexivity].
  rewrite has_String, !orb_false_r. numeric_char.
Qed.

Lemma has_pick p x l g :
  forallb (fun s => negb (has p s)) (x :: l) = true ->
  has p (pick x l g) = false.
Proof.
  intros H. apply negb_true_iff.
  exact (pick_forallb (fun s => negb (has p s)) x l g H).
Qed.

Lemma has_optional_value p x l g :
  forallb (fun s => negb (has p s)) (x :: l) = true ->
  has p (optional_value x l g) = false.
Proof.
  intros H. unfold optional_value. destruct (coin g); [|reflexivity].
  apply has_pick, H.
Qed.

Lemma has_digit p d s :
  rejects_numeric p ->
  has p (String (FloatRepr.digit_char d) s) = has p s.
Proof.
  intros Hp. rewrite has_String.
  assert (p (FloatRepr.digit_char d) = false) as ->; [|reflexivity].
  destruct d as [|q|q]; try numeric_char.
  do 4 (try destruct q as [q|q|]; try numeric_char).
Qed.

Lemma has_digits_str p ds :
  rejects_numeric p -> has p (FloatRepr.digits_str ds) = false.
Proof.
  intros Hp. induction ds as [|d ds IH]; [reflexivity|].
  cbn [FloatRepr.digits_str]. now rewrite has_digit.
Qed.

Lemma has_literal_numeric p s :
  rejects_numeric p ->
  forallb (fun c => existsb (Ascii.eqb c) (chars "0123456789-+.einfa"))
          (chars s) = true ->
  has p s = false.
Proof.
  intros Hp Hs. unfold has. apply existsb_none. intros c Hc.
  rewrite forallb_forall in Hs. specialize (Hs c Hc).
  apply existsb_exists in Hs as (c' & Hin & Heq).
  apply Ascii.eqb_eq in Heq. subst c'.
  exact (rejects_char p c Hp Hin).
Qed.

Lemma has_exponent_str p x :
  rejects_numeric p -> has p (FloatRepr.exponent_str x) = false.
Proof.
  intros Hp. unfold FloatRepr.exponent_str.
  rewrite !has_append, has_str_of_int by exact Hp.
  destruct (x <? 0), (Z.abs x <? 10);
    rewrite !(has_literal_numeric p _ Hp) by reflexivity; reflexivity.
Qed.

Lemma has_layout p ds k :
  rejects_numeric p -> has p (FloatRepr.layout ds k) = false.
Proof.
  intros Hp. unfold FloatRepr.layout.
  destruct ((k <=? -4) || (16 <? k)).
  - destruct ds as [|d [|d' rest]]; [reflexivity | |];
      rewrite !has_append, !has_digits_str, has_exponent_str,
        !(has_literal_numeric p _ Hp) by (reflexivity || exact Hp);
      reflexivity.
  - destruct (k <=? 0); [|destruct (_ <=? k)];
      rewrite !has_append, ?has_digits_str by exact Hp;
      unfold FloatRepr.zeros; rewrite ?has_replicate_zero by exact Hp;
      rewrite ?(has_literal_numeric p _ Hp) by reflexivity; reflexivity.
Qed.

Lemma has_repr p x : rejects_numeric p -> has p (FloatRepr.repr x) = false.
Proof.
  intros Hp.
  destruct x as [sg|sg| |sg m e]; cbn [FloatRepr.repr];
    try (destruct sg; apply (has_literal_numeric p _ Hp); reflexivity);
    try (apply (has_literal_numeric p _ Hp); reflexivity).
  destruct (FloatRepr.shortest (Z.pos m) e) as [ds k].
  rewrite has_append, has_layout by exact Hp.
  destruct sg; [|reflexivity].
  rewrite (has_literal_numeric p _ Hp) by reflexivity. reflexivity.
Qed.

Lemma has_float_text p x : rejects_numeric p -> has p (text (VFloat x)) = false.
Proof.
  intros Hp. unfold text, cell_str.
  destruct x; try reflexivity; apply has_repr, Hp.
Qed.

End TextFacts.

(** ** More about one iteration of the loop *)

Section MoreRowFacts.
Import PyStr PyRandom Generator Checks Pandas RowShape.

Ltac has_false :=
  lazymatch goal with
  | |- has _ (_ ++ _) = false =>
      rewrite has_append; apply orb_false_intro; has_false
  | |- has _ (str_of_int _) = false => apply has_str_of_int; reflexivity
  | |- has _ (format_0d _ _) = false => apply has_format_0d; reflexivity
  | |- has _ (pick _ _ _) = false => apply has_pick; reflexivity
  | |- has _ (optional_value _ _ _) = false =>
      apply has_optional_value; reflexivity
  | |- has _ (text (VFloat _)) = false => apply has_float_text; reflexivity
  | |- _ => reflexivity
  end.

Ltac has_true :=
  lazymatch goal with
  | |- has _ (_ ++ _) = true =>
      rewrite has_append; apply orb_true_intro;
      first [left; has_true | right; has_true]
  | |- has _ (pick _ _ _) = true => fail
  | |- has _ (str_of_int _) = true => fail
  | |- _ => reflexivity
  end.

Ltac cell_chars :=
  lazymatch goal with
  | |- has _ (text (VStr ?s)) = _ => change (text (VStr s)) with s
  | |- has _ (text (VInt ?z)) = _ =>
      change (text (VInt z)) with (str_of_int z)
  | |- _ => idtac
  end;
  lazymatch goal with
  | |- _ = ?r =>
      let r' := eval vm_compute in r in
      change r with r';
      lazymatch r' with
      | true => has_true
      | false => has_false
      end
  end.

(** Every iteration returns a row, and the row is as [row_more] says. *)
Lemma gen_row_more i g :
  exists row, gen_row i g = Ok row (after_row g) /\ row_more i g row.
Proof.
  unfold gen_row. cbv zeta.
  unfold brands, manufacturers, countries, flavors, certifications,
    dietary_info, genders, age_groups, allergens, skin_types, hair_types,
    seasons.
  repeat first [ rewrite bind_randint by reflexivity
               | rewrite bind_choice
               | rewrite bind_uniform
               | rewrite bind_optional
               | progress cbv beta ].
  eexists. split; [reflexivity|].
  constructor.
  - reflexivity.
  - eexists _, _. split; [apply pick_In|]. split; [apply pick_In|].
    repeat split; reflexivity.
  - reflexivity.
  - eexists. split; [|reflexivity]. apply randint_range; reflexivity.
  - reflexivity.
  - eexists _, _, _, _, _, _, _.
    do 7 (split; [apply pick_In|]). repeat split; reflexivity.
  - eexists _, _, _. do 3 (split; [apply pick_In|]).
    repeat split; reflexivity.
  - repeat split; reflexivity.
  - repeat (apply Forall_cons; [cbn [fst snd]; split; cell_chars|]).
    apply Forall_nil.
Qed.

End MoreRowFacts.

(** ** The iterations of a run *)

Section Steps.
Import PyStr PyRandom Generator Checks Pandas Script RowShape.

(** Whatever an iteration returns satisfies both lists of facts. *)
Lemma row_of_step i g row g' :
  gen_row i g = Ok row g' ->
  g' = after_row g /\ row_facts i g row /\ row_more i g row.
Proof.
  intros H.
  destruct (gen_row_run i g) as (r1 & E1 & F1).
  destruct (gen_row_more i g) as (r2 & E2 & F2).
  rewrite H in E1, E2. injection E1 as <- ->. injection E2 as <-.
  auto.
Qed.

Lemma state_at_succ n g : state_at (S n) g = after_row (state_at n g).
Proof. reflexivity. Qed.

(** The loop over any list of indices, starting from any list of
    products: iteration number [n] runs the body on the [n]-th index in the
    state the previous iterations left. *)
Lemma for_each_steps indices :
  forall acc g,
  exists rows,
    for_each indices acc g
    = Ok (acc ++ rows)%list (state_at (List.length indices) g)
    /\ List.length rows = List.length indices
    /\ forall n i, nth_error indices n = Some i ->
         exists row, nth_error rows n = Some row
                     /\ gen_row i (state_at n g)
                        = Ok row (state_at (S n) g).
Proof.
  induction indices as [|i rest IH]; intros acc g.
  - exists []. rewrite app_nil_r. repeat split.
    intros [|n] j H; discriminate H.
  - destruct (gen_row_run i g) as (row & Hrun & _).
    destruct (IH (acc ++ [row])%list (after_row g))
      as (rows & Hrest & Hlen & Hnth).
    exists (row :: rows). split; [|split].
    + cbn [for_each]. unfold bind. rewrite Hrun, Hrest.
      rewrite <- app_assoc. cbn [List.length]. unfold state_at.
      rewrite Nat.iter_succ_r. reflexivity.
    + cbn [List.length]. now rewrite Hlen.
    + intros [|n] j H; cbn [nth_error] in *.
      * injection H as <-. exists row. split; [reflexivity | exact Hrun].
      * destruct (Hnth n j H) as (r & Hr & Hf). exists r.
        split; [exact Hr|]. unfold state_at in *.
        rewrite !Nat.iter_succ_r in *. exact Hf.
Qed.

(** A run, iteration by iteration. *)
Lemma main_steps g :
  exists rows,
    main g = Ok (mk_outcome rows (from_records rows all_columns)
                   output_file (to_csv (from_records rows all_columns)))
                (state_at 400 g)
    /\ List.length rows = 400%nat
    /\ forall n, (n < 400)%nat ->
         exists row, nth_error rows n = Some row
                     /\ gen_row (Z.of_nat n + 1) (state_at n g)
                        = Ok row (state_at (S n) g).
Proof.
  destruct (for_each_steps (range 1 401) [] g) as (rows & Hrun & Hlen & Hnth).
  rewrite range_length in Hrun, Hlen.
  change (Z.to_nat (401 - 1)) with 400%nat in *.
  exists rows. split; [|split; [exact Hlen|]].
  - unfold main, bind, generate. rewrite Hrun. reflexivity.
  - intros n Hn. destruct (Hnth n (1 + Z.of_nat n)) as (row & Hr & Hf).
    + apply range_nth. exact Hn.
    + exists row. split; [exact Hr|]. now rewrite Z.add_comm.
Qed.

(** In every run, every row satisfies what the iterations guarantee. *)
Lemma run_rows (P : dict -> Prop) g :
  (forall i gi row, row_facts i gi row -> row_more i gi row -> P row) ->
  exists out g',
    main g = Ok out g'
    /\ List.length (products out) = 400%nat
    /\ Forall P (products out).
Proof.
  intros HP. destruct (main_steps g) as (rows & Hmain & Hlen & Hnth).
  eexists _, _. split; [exact Hmain|]. cbn [products].
  split; [exact Hlen|]. apply Forall_forall. intros row Hin.
  apply In_nth_error in Hin as (n & Hn).
  assert (n < 400)%nat as Hlt.
  { rewrite <- Hlen. apply nth_error_Some. congruence. }
  destruct (Hnth n Hlt) as (row' & Hr & Hstep).
  assert (row' = row) as -> by congruence.
  destruct (row_of_step _ _ _ _ Hstep) as (_ & F1 & F2).
  eapply HP; eassumption.
Qed.

End Steps.

(** ** How many digits a number is written with *)

Section DigitCount.
Import PyStr Checks.

Lemma length_string_of_uint d :
  String.length (NilEmpty.string_of_uint d) = nb_digits d.
Proof.
  induction d; cbn [NilEmpty.string_of_uint String.length nb_digits];
    congruence.
Qed.

Lemma all_digits_uint d : all_digits (NilEmpty.string_of_uint d) = true.
Proof.
  unfold all_digits.
  induction d; cbn [NilEmpty.string_of_uint PyStr.chars forallb];
    [reflexivity | rewrite IHd; reflexivity ..].
Qed.

Lemma of_uint_acc_bounds d :
  forall acc,
    Zpos acc * 10 ^ Z.of_nat (nb_digits d)
    <= Zpos (Pos.of_uint_acc d acc)
    < (Zpos acc + 1) * 10 ^ Z.of_nat (nb_digits d).
Proof.
  induction d; intros acc; cbn [Pos.of_uint_acc nb_digits];
    [change (10 ^ Z.of_nat 0) with 1; lia | ..];
    rewrite Nat2Z.inj_succ, Z.pow_succ_r by lia;
    match goal with
    | |- context [Pos.of_uint_acc d ?a] => specialize (IHd a)
    end;
    assert (0 < 10 ^ Z.of_nat (nb_digits d)) by (apply Z.pow_pos_nonneg; lia);
    nia.
Qed.

(** A number written without a leading zero lies between the powers of
    ten that its length gives. *)
Lemma of_uint_bounds d :
  d <> Nil -> (forall d', d <> D0 d') ->
  10 ^ (Z.of_nat (nb_digits d) - 1) <= Z.of_N (Pos.of_uint d)
  < 10 ^ Z.of_nat (nb_digits d).
Proof.
  intros Hnil Hzero.
  destruct d; [contradiction | exfalso; eapply Hzero; reflexivity | ..];
    cbn [Pos.of_uint nb_digits]; rewrite Nat2Z.inj_succ;
    replace (Z.succ (Z.of_nat (nb_digits d)) - 1)
      with (Z.of_nat (nb_digits d)) by lia;
    rewrite Z.pow_succ_r by lia;
    match goal with
    | |- context [Pos.of_uint_acc d ?a] =>
        pose proof (of_uint_acc_bounds d a) as Hb
    end;
    assert (0 < 10 ^ Z.of_nat (nb_digits d)) by (apply Z.pow_pos_nonneg; lia);
    cbn [Z.of_N]; nia.
Qed.

Lemma to_uint_no_leading_zero p d' : Pos.to_uint p <> D0 d'.
Proof.
  intros H.
  pose proof (DecimalPos.Unsigned.to_of (Pos.to_uint p)) as Hn.
  rewrite DecimalPos.Unsigned.of_to in Hn. cbn [N.to_uint] in Hn.
  pose proof (DecimalPos.Unsigned.to_uint_nonzero p) as Hz.
  assert (nzhead (Pos.to_uint p) <> Nil) as Hh.
  { intros E. apply DecimalFacts.unorm_0 in E. congruence. }
  rewrite (DecimalFacts.unorm_nzhead _ Hh) in Hn.
  rewrite H in Hn. symmetry in Hn.
  exact (DecimalFacts.nzhead_nonzero _ _ Hn).
Qed.

(** The number of characters of [str(z)] for a positive [z]. *)
Lemma str_of_int_length z k :
  0 < k -> 10 ^ (k - 1) <= z < 10 ^ k ->
  String.length (str_of_int z) = Z.to_nat k.
Proof.
  intros Hk [Hl Hu].
  assert (0 < z) as Hz.
  { assert (0 < 10 ^ (k - 1)) by (apply Z.pow_pos_nonneg; lia). lia. }
  destruct z as [|p|p]; [lia| |lia].
  unfold str_of_int, NilZero.string_of_int, NilZero.string_of_uint.
  cbn [Z.to_int].
  pose proof (DecimalPos.Unsigned.to_uint_nonnil p) as Hn.
  pose proof (of_uint_bounds (Pos.to_uint p) Hn
                (to_uint_no_leading_zero p)) as [Bl Bu].
  rewrite DecimalPos.Unsigned.of_to in Bl, Bu. cbn [Z.of_N] in Bl, Bu.
  assert (String.length (NilEmpty.string_of_uint (Pos.to_uint p))
          = Z.to_nat k) as E.
  { rewrite length_string_of_uint.
    set (n := nb_digits (Pos.to_uint p)) in *.
    assert (Z.of_nat n - 1 < k)
      by (apply (Z.pow_lt_mono_r_iff 10); lia).
    assert (k - 1 < Z.of_nat n)
      by (apply (Z.pow_lt_mono_r_iff 10); lia).
    lia. }
  destruct (Pos.to_uint p); [contradiction | exact E ..].
Qed.

Lemma all_digits_str_of_int z : 0 <= z -> all_digits (str_of_int z) = true.
Proof.
  intros Hz. destruct (str_of_int_uint z Hz) as (d & -> & _).
  apply all_digits_uint.
Qed.

End DigitCount.

(** ** Fields of the records *)

Section FieldFacts.
Import PyStr PyRandom Generator Checks Pandas Script RowShape.

Lemma decimal_value_str_of_int z :
  0 <= z -> decimal_value (str_of_int z) = Some z.
Proof.
  intros Hz. destruct (str_of_int_uint z Hz) as (d & -> & Hd).
  unfold decimal_value. rewrite NilEmpty.usu. cbn [option_map].
  unfold Z.of_uint. rewrite Hd. f_equal. lia.
Qed.


(** X1. Every run completes with 400 records, and in each of them
    [barcode] is a string of exactly twelve decimal digits that denotes a
    number between 100000000000 and 999999999999. *)
Theorem barcode_twelve_digits (g : rng) :
  exists out g',
    main g = Ok out g'
    /\ List.length (products out) = 400%nat
    /\ Forall (fun row =>
                 exists code digits,
                   dict_get "barcode" row = Some (VStr digits)
                   /\ String.length digits = 12%nat
                   /\ all_digits digits = true
                   /\ decimal_value digits = Some code
                   /\ 100000000000 <= code <= 999999999999)
              (products out).
Proof.
  apply run_rows. intros i gi row _ Hm.
  pose proof (randint_range 100000000000 999999999999 (advance 14 gi)
                eq_refl) as Hr.
  cbn [tape pos advance] in Hr.
  eexists _, _. split; [exact (rm_barcode _ _ _ Hm)|].
  split; [|split; [|split; [|exact Hr]]].
  - apply (str_of_int_length _ 12); [lia|].
    change (10 ^ (12 - 1)) with 100000000000.
    change (10 ^ 12) with 1000000000000. lia.
  - apply all_digits_str_of_int. lia.
  - apply decimal_value_str_of_int. lia.
Qed.

(** X2. Every run completes with 400 records, and in each of them [size]
    is a number of grams between 500 and 2000, written with three or four
    decimal digits and followed by the letter g. *)
Theorem size_in_grams (g : rng) :
  exists out g',
    main g = Ok out g'
    /\ List.length (products out) = 400%nat
    /\ Forall (fun row =>
                 exists grams digits,
                   dict_get "size" row = Some (VStr (digits ++ "g"))
                   /\ all_digits digits = true
                   /\ decimal_value digits = Some grams
                   /\ 500 <= grams <= 2000
                   /\ (3 <= String.length digits <= 4)%nat)
              (products out).
Proof.
  apply run_rows. intros i gi row _ Hm.
  destruct (rm_size _ _ _ Hm) as (grams & Hr & Hget).
  exists grams, (str_of_int grams). split; [exact Hget|].
  split; [apply all_digits_str_of_int; lia|].
  split; [apply decimal_value_str_of_int; lia|].
  split; [exact Hr|].
  destruct (Z.lt_ge_cases grams 1000) as [Hlt|Hge].
  - rewrite (str_of_int_length grams 3); [lia | lia |].
    change (10 ^ (3 - 1)) with 100. change (10 ^ 3) with 1000. lia.
  - rewrite (str_of_int_length grams 4); [lia | lia |].
    change (10 ^ (4 - 1)) with 1000. change (10 ^ 4) with 10000. lia.
Qed.

End FieldFacts.

Section TextFields.
Import PyStr PyRandom Generator Checks Pandas Script RowShape.

(** X3. Every run completes with 400 records, and each of them is written
    around one brand of [brands] and one flavor of [flavors]: [brand] holds
    the brand, [scent] holds the flavor, [description] and [features]
    embed the flavor, and [metaTitle] and [metaDescription] embed both. *)
Theorem one_brand_and_flavor_per_record (g : rng) :
  exists out g',
    main g = Ok out g'
    /\ List.length (products out) = 400%nat
    /\ Forall (fun row =>
                 exists brand flavor before after title_end,
                   In brand brands /\ In flavor flavors
                   /\ dict_get "brand" row = Some (VStr brand)
                   /\ dict_get "scent" row = Some (VStr flavor)
                   /\ dict_get "description" row
                      = Some (VStr (before ++ flavor ++ " flavor for gym and fitness enthusiasts."))
                   /\ dict_get "features" row
                      = Some (VStr ("Supports muscle growth,Boosts recovery,High Protein content,"
                                    ++ flavor ++ " flavor"))
                   /\ dict_get "metaTitle" row
                      = Some (VStr (brand ++ title_end ++ flavor))
                   /\ dict_get "metaDescription" row
                      = Some (VStr ("Buy " ++ brand ++ " " ++ flavor ++ after)))
              (products out).
Proof.
  apply run_rows. intros i gi row _ Hm.
  destruct (rm_texts _ _ _ Hm)
    as (brand & flavor & Hb & Hf & Gb & Gs & Gd & Gf & Gt & Gm).
  exists brand, flavor.
  exists ("High-quality Protein supplement " ++ str_of_int i
          ++ " ideal for muscle growth and recovery. ").
  exists (" Protein supplement " ++ str_of_int i
          ++ " - premium protein for strength, muscle growth, and fitness.").
  exists (" Protein Supplement " ++ str_of_int i ++ " - ").
  repeat (split; [assumption|]).
  split; [rewrite Gd; now rewrite !append_assoc|].
  split; [exact Gf|].
  split; [rewrite Gt; now rewrite !append_assoc | exact Gm].
Qed.


(** X5. Every run completes with 400 records, and in each of them
    [manufacturer], [countryOfOrigin], [certifications], [dietaryInfo],
    [gender], [ageGroup] and [season] hold a member of their candidate
    lists, and the flags [isNewProduct], [isBestseller] and [isFeatured]
    hold the string "TRUE" or the string "FALSE". *)
Theorem sampled_fields_come_from_their_lists (g : rng) :
  exists out g',
    main g = Ok out g'
    /\ List.length (products out) = 400%nat
    /\ Forall (fun row =>
                 (exists manufacturer country cert diet gender age season,
                    In manufacturer manufacturers /\ In country countries
                    /\ In cert certifications /\ In diet dietary_info
                    /\ In gender genders /\ In age age_groups
                    /\ In season seasons
                    /\ dict_get "manufacturer" row = Some (VStr manufacturer)
                    /\ dict_get "countryOfOrigin" row = Some (VStr country)
                    /\ dict_get "certifications" row = Some (VStr cert)
                    /\ dict_get "dietaryInfo" row = Some (VStr diet)
                    /\ dict_get "gender" row = Some (VStr gender)
                    /\ dict_get "ageGroup" row = Some (VStr age)
                    /\ dict_get "season" row = Some (VStr season))
                 /\ (exists is_new is_bestseller is_featured,
                       (is_new = "TRUE" \/ is_new = "FALSE")
                       /\ (is_bestseller = "TRUE" \/ is_bestseller = "FALSE")
                       /\ (is_featured = "TRUE" \/ is_featured = "FALSE")
                       /\ dict_get "isNewProduct" row = Some (VStr is_new)
                       /\ dict_get "isBestseller" row
                          = Some (VStr is_bestseller)
                       /\ dict_get "isFeatured" row
                          = Some (VStr is_featured)))
              (products out).
Proof.
  apply run_rows. intros i gi row _ Hm. split.
  - exact (rm_choices _ _ _ Hm).
  - destruct (rm_flags _ _ _ Hm) as (a & b & c & Ha & Hb & Hc & Hrest).
    exists a, b, c.
    assert (forall s, In s ["TRUE"; "FALSE"] -> s = "TRUE" \/ s = "FALSE")
      as Hcase by (intros s [<-|[<-|[]]]; auto).
    repeat split; try apply Hcase; try assumption; apply Hrest.
Qed.

(** X6. Every run completes with 400 records, and eight further columns
    are the same in all of them: [subcategory], [tags], [ingredients],
    [color], [material], [careInstructions] and [keywords] hold their fixed
    texts, and [spf] holds the empty string. *)
Theorem constant_columns (g : rng) :
  exists out g',
    main g = Ok out g'
    /\ List.length (products out) = 400%nat
    /\ Forall (fun row =>
                 dict_get "subcategory" row = Some (VStr "Health Supplement")
                 /\ dict_get "tags" row
                    = Some (VStr "Protein,supplement,gym,fitness,muscle")
                 /\ dict_get "ingredients" row
                    = Some (VStr "Whey Protein Concentrate,Whey Protein Isolate,BCAAs,Digestive Enzymes")
                 /\ dict_get "color" row = Some (VStr "N/A")
                 /\ dict_get "material" row = Some (VStr "Plastic Jar")
                 /\ dict_get "careInstructions" row
                    = Some (VStr "Store in a cool dry place,Keep away from moisture")
                 /\ dict_get "keywords" row
                    = Some (VStr "Protein,health,supplement,gym,fitness,muscle")
                 /\ dict_get "spf" row = Some (VStr EmptyString))
              (products out).
Proof.
  apply run_rows. intros i gi row _ Hm. exact (rm_constants _ _ _ Hm).
Qed.

End TextFields.

Section IndexFields.
Import PyStr PyRandom Generator Checks Pandas Script RowShape.

Lemma Forall2_of_nth {A B} (R : A -> B -> Prop) l1 :
  forall l2,
    List.length l2 = List.length l1 ->
    (forall n a, nth_error l1 n = Some a ->
       exists b, nth_error l2 n = Some b /\ R a b) ->
    Forall2 R l1 l2.
Proof.
  induction l1 as [|a l1 IH]; intros [|b l2] Hlen Hnth;
    try discriminate Hlen; [constructor|].
  destruct (Hnth 0%nat a eq_refl) as (b' & Hb & HR).
  injection Hb as <-. constructor; [exact HR|].
  apply IH; [now injection Hlen|].
  intros n x Hx. exact (Hnth (S n) x Hx).
Qed.

Lemma filter_length_Forall2 {A B} (R : A -> B -> Prop) f h l1 l2 :
  Forall2 R l1 l2 ->
  (forall a b, R a b -> f a = h b) ->
  List.length (filter f l1) = List.length (filter h l2).
Proof.
  intros H Hfh. induction H as [|a b l1 l2 HR _ IH]; [reflexivity|].
  cbn [filter]. rewrite (Hfh a b HR).
  destruct (h b); cbn [List.length]; now rewrite IH.
Qed.

(** The rows of a run, paired with the indices of the loop. *)
Lemma run_rows_indexed g :
  exists rows,
    main g = Ok (mk_outcome rows (from_records rows all_columns)
                   output_file (to_csv (from_records rows all_columns)))
                (state_at 400 g)
    /\ List.length rows = 400%nat
    /\ Forall2 (fun i row =>
                  exists gi, row_facts i gi row /\ row_more i gi row)
               (range 1 401) rows.
Proof.
  destruct (main_steps g) as (rows & Hmain & Hlen & Hnth).
  exists rows. split; [exact Hmain|]. split; [exact Hlen|].
  apply Forall2_of_nth.
  - rewrite range_length. exact Hlen.
  - intros n i Hi.
    assert (n < 400)%nat as Hn.
    { change 400%nat with (Z.to_nat (401 - 1)).
      rewrite <- (range_length 1 401). apply nth_error_Some. congruence. }
    rewrite range_nth in Hi by exact Hn. injection Hi as <-.
    destruct (Hnth n Hn) as (row & Hr & Hstep).
    exists row. split; [exact Hr|].
    rewrite Z.add_comm in Hstep.
    destruct (row_of_step _ _ _ _ Hstep) as (_ & F1 & F2).
    eexists. split; eassumption.
Qed.

Lemma image_usage :
  forallb (fun k =>
             let uses :=
               List.length
                 (filter (fun i => String.eqb (image_path (i mod 9 + 1))
                                              (image_path k))
                         (range 1 401)) in
             (44 <=? uses)%nat && (uses <=? 45)%nat)
          (range 1 10) = true.
Proof. vm_compute. reflexivity. Qed.

(** X7. In every run, the [images] field of every record names one of the
    nine files protien1.jpg to protien9.jpg; records nine places apart
    name the same file; and each of the nine files is named by 44 or 45 of
    the 400 records. *)
Theorem images_cycle_through_nine_files (g : rng) :
  exists out g',
    main g = Ok out g'
    /\ Forall (fun row =>
                 exists k, 1 <= k <= 9
                           /\ dict_get "images" row
                              = Some (VStr (image_path k)))
              (products out)
    /\ (forall n row row',
          nth_error (products out) n = Some row ->
          nth_error (products out) (n + 9) = Some row' ->
          dict_get "images" row' = dict_get "images" row)
    /\ (forall k, 1 <= k <= 9 ->
          (44 <= List.length (filter (shows k) (products out)) <= 45)%nat).
Proof.
  destruct (run_rows_indexed g) as (rows & Hmain & Hlen & Hall).
  destruct (main_steps g) as (rows' & Hmain' & _ & Hnth).
  rewrite Hmain in Hmain'. injection Hmain' as <-.
  eexists _, _. split; [exact Hmain|]. cbn [products].
  assert (forall n row,
             nth_error rows n = Some row ->
             (n < 400)%nat
             /\ dict_get "images" row
                = Some (VStr (image_path ((Z.of_nat n + 1) mod 9 + 1))))
    as Himg.
  { intros n row Hrow.
    assert (n < 400)%nat as Hn.
    { rewrite <- Hlen. apply nth_error_Some. congruence. }
    split; [exact Hn|].
    destruct (Hnth n Hn) as (row' & Hr & Hstep).
    assert (row' = row) as -> by congruence.
    destruct (row_of_step _ _ _ _ Hstep) as (_ & F1 & _).
    exact (rf_images _ _ _ F1). }
  split; [|split].
  - apply Forall_forall. intros row Hin.
    apply In_nth_error in Hin as (n & Hn).
    destruct (Himg n row Hn) as [_ Hget].
    exists ((Z.of_nat n + 1) mod 9 + 1). split; [|exact Hget].
    pose proof (Z.mod_pos_bound (Z.of_nat n + 1) 9 ltac:(lia)). lia.
  - intros n row row' Hrow Hrow'.
    destruct (Himg n row Hrow) as [_ ->].
    destruct (Himg (n + 9)%nat row' Hrow') as [_ ->].
    replace (Z.of_nat (n + 9) + 1) with (Z.of_nat n + 1 + 1 * 9) by lia.
    now rewrite Z_mod_plus_full.
  - intros k Hk.
    rewrite <- (filter_length_Forall2
                  (fun i row =>
                     exists gi, row_facts i gi row /\ row_more i gi row)
                  (fun i => String.eqb (image_path (i mod 9 + 1))
                                       (image_path k))
                  (shows k) (range 1 401) rows Hall).
    + pose proof image_usage as Hu. rewrite forallb_forall in Hu.
      specialize (Hu k (range_In 1 10 k ltac:(lia))). cbv zeta in Hu.
      apply andb_prop in Hu as [H1 H2].
      apply Nat.leb_le in H1, H2. split; assumption.
    + intros i row (gi & F1 & _). unfold shows.
      rewrite (rf_images _ _ _ F1). reflexivity.
Qed.

End IndexFields.

Section AnyIndex.
Import PyStr PyRandom Generator Checks Pandas Script RowShape.

Lemma length_append a b :
  String.length (a ++ b) = (String.length a + String.length b)%nat.
Proof. induction a as [|c a IH]; cbn; [reflexivity | now rewrite IH]. Qed.

Lemma length_replicate n c : String.length (replicate n c) = n.
Proof. induction n as [|n IH]; cbn; [reflexivity | now rewrite IH]. Qed.

Lemma all_digits_append a b :
  all_digits (a ++ b) = all_digits a && all_digits b.
Proof. unfold all_digits. now rewrite chars_append, forallb_app. Qed.

Lemma all_digits_replicate n : all_digits (replicate n "0") = true.
Proof.
  induction n as [|n IH]; [reflexivity|].
  unfold all_digits in *. cbn [replicate PyStr.chars forallb].
  now rewrite IH.
Qed.

(** The powers of ten between which a positive number lies, from the
    number of characters of its [str]. *)
Lemma str_of_int_bounds z :
  0 < z ->
  10 ^ (Z.of_nat (String.length (str_of_int z)) - 1) <= z
  < 10 ^ Z.of_nat (String.length (str_of_int z)).
Proof.
  intros Hz. destruct z as [|p|p]; [lia| |lia].
  unfold str_of_int, NilZero.string_of_int, NilZero.string_of_uint.
  cbn [Z.to_int].
  pose proof (DecimalPos.Unsigned.to_uint_nonnil p) as Hn.
  pose proof (of_uint_bounds (Pos.to_uint p) Hn
                (to_uint_no_leading_zero p)) as B.
  rewrite DecimalPos.Unsigned.of_to in B. cbn [Z.of_N] in B.
  rewrite <- length_string_of_uint in B.
  destruct (Pos.to_uint p); [contradiction | exact B ..].
Qed.

(** A zero-padded non-negative number is as long as the longer of the
    width and its digits. *)
Lemma format_0d_length w z :
  0 <= z ->
  String.length (format_0d w z)
  = Nat.max w (String.length (str_of_int z)).
Proof.
  intros Hz. unfold format_0d.
  assert ((z <? 0) = false) as -> by lia.
  rewrite Z.abs_eq by exact Hz.
  cbn [append String.length].
  rewrite length_append, length_replicate. lia.
Qed.

Lemma all_digits_format_0d w z : 0 <= z -> all_digits (format_0d w z) = true.
Proof.
  intros Hz. unfold format_0d.
  assert ((z <? 0) = false) as -> by lia.
  rewrite Z.abs_eq by exact Hz. cbn [append].
  now rewrite all_digits_append, all_digits_replicate, all_digits_str_of_int.
Qed.

(** X8. The body of the loop run on any non-negative index [i], inside or
    outside the range the script uses: the [sku] is "PROT" followed by
    decimal digits that denote [i]; there are exactly four of them as long
    as [i] is at most 9999, and more than four from 10000 on, where the
    number is written in full. *)
Theorem sku_of_any_index (i : Z) (g : rng) :
  0 <= i ->
  exists row g' digits,
    gen_row i g = Ok row g'
    /\ dict_get "sku" row = Some (VStr ("PROT" ++ digits))
    /\ all_digits digits = true
    /\ decimal_value digits = Some i
    /\ (i <= 9999 -> String.length digits = 4%nat)
    /\ (10000 <= i -> (4 < String.length digits)%nat
                      /\ digits = str_of_int i).
Proof.
  intros Hi. destruct (gen_row_run i g) as (row & Hrun & Hf).
  exists row, (after_row g), (format_0d 4 i).
  split; [exact Hrun|]. split; [exact (rf_sku _ _ _ Hf)|].
  split; [apply all_digits_format_0d, Hi|].
  split; [apply decimal_value_format_0d, Hi|].
  assert (forall k, 0 <= k -> 10 ^ k <= i ->
                    k < Z.of_nat (String.length (str_of_int i))) as Hlow.
  { intros k Hk Hle.
    assert (0 < 10 ^ k) by (apply Z.pow_pos_nonneg; lia).
    pose proof (str_of_int_bounds i ltac:(lia)) as [_ Hu].
    apply (Z.pow_lt_mono_r_iff 10); lia. }
  assert (forall k, 0 < k -> 0 < i -> i < 10 ^ k ->
                    Z.of_nat (String.length (str_of_int i)) <= k) as Hup.
  { intros k Hk Hpos Hlt.
    pose proof (str_of_int_bounds i Hpos) as [Hl _].
    assert (Z.of_nat (String.length (str_of_int i)) - 1 < k); [|lia].
    apply (Z.pow_lt_mono_r_iff 10); lia. }
  split.
  - intros Hle. rewrite format_0d_length by exact Hi.
    destruct (Z.eq_dec i 0) as [->|Hne]; [reflexivity|].
    specialize (Hup 4 ltac:(lia) ltac:(lia)).
    change (10 ^ 4) with 10000 in Hup. lia.
  - intros Hge.
    specialize (Hlow 4 ltac:(lia)). change (10 ^ 4) with 10000 in Hlow.
    specialize (Hlow Hge). split.
    + rewrite format_0d_length by exact Hi. lia.
    + unfold format_0d. assert ((i <? 0) = false) as -> by lia.
      rewrite Z.abs_eq by exact Hi. cbn [append String.length].
      replace (4 - 0 - String.length (str_of_int i))%nat with 0%nat by lia.
      reflexivity.
Qed.

(** [sku_of_any_index] at the index 12345 of the sample run. *)
Lemma sku_of_any_index_witness :
  0 <= 12345
  /\ exists row g' digits,
       gen_row 12345 sample_rng = Ok row g'
       /\ dict_get "sku" row = Some (VStr ("PROT" ++ digits))
       /\ all_digits digits = true
       /\ decimal_value digits = Some 12345
       /\ (12345 <= 9999 -> String.length digits = 4%nat)
       /\ (10000 <= 12345 -> (4 < String.length digits)%nat
                             /\ digits = str_of_int 12345).
Proof.
  split; [lia | apply (sku_of_any_index 12345 sample_rng); lia].
Defined.

(** X16. The loop over any list of indices, started with any list of
    products already collected: it returns those products followed by
    exactly one row per index, in the order of the indices (with no index,
    the products come back unchanged), and it reads the entropy tape
    without changing it. *)
Theorem loop_appends_one_row_per_index (indices : list Z)
  (collected : list dict) (g : rng) :
  exists rows g',
    for_each indices collected g = Ok (collected ++ rows)%list g'
    /\ List.length rows = List.length indices
    /\ map (dict_get "sku") rows
       = map (fun i => Some (VStr ("PROT" ++ format_0d 4 i))) indices
    /\ tape g' = tape g
    /\ (pos g <= pos g')%nat.
Proof.
  revert collected g.
  induction indices as [|i rest IH]; intros collected g.
  - exists [], g. rewrite app_nil_r. repeat split. lia.
  - destruct (gen_row_run i g) as (row & Hrun & Hf).
    destruct (IH (collected ++ [row])%list (after_row g))
      as (rows & g' & Hrest & Hlen & Hsku & Htape & Hpos).
    exists (row :: rows), g'. split; [|split; [|split; [|split]]].
    + cbn [for_each]. unfold bind. rewrite Hrun, Hrest.
      now rewrite <- app_assoc.
    + cbn [List.length]. now rewrite Hlen.
    + cbn [map]. now rewrite Hsku, (rf_sku _ _ _ Hf).
    + rewrite Htape. reflexivity.
    + assert (pos g <= pos (after_row g))%nat; [|lia].
      unfold after_row.
      pose proof (after_optional_pos (advance 18 g)).
      pose proof (after_optional_pos (after_optional (advance 18 g))).
      pose proof (after_optional_pos
                    (after_optional (after_optional (advance 18 g)))).
      cbn [pos advance] in *. lia.
Qed.

End AnyIndex.

(** ** The entropy a run reads *)

Section Draws.
Import PyStr PyRandom Generator Checks Pandas Script RowShape.

Lemma after_optional_tape g : tape (after_optional g) = tape g.
Proof. reflexivity. Qed.

Lemma after_row_tape g : tape (after_row g) = tape g.
Proof. reflexivity. Qed.

Lemma state_at_tape n g : tape (state_at n g) = tape g.
Proof.
  induction n as [|n IH]; [reflexivity|].
  rewrite state_at_succ, after_row_tape. exact IH.
Qed.

Lemma filled_le row : (filled row <= 3)%nat.
Proof.
  unfold filled.
  etransitivity; [apply filter_length_le | cbn; lia].
Qed.

(** An iteration makes twenty-three draws and one more for each optional
    field it fills. *)
Lemma row_draws i g row :
  row_facts i g row ->
  pos (after_row g) = (pos g + 23 + filled row)%nat.
Proof.
  intros Hf. unfold filled. cbn [filter].
  rewrite (rf_allergens _ _ _ Hf), (rf_skin _ _ _ Hf), (rf_hair _ _ _ Hf).
  set (g1 := advance 18 g).
  set (g2 := after_optional g1). set (g3 := after_optional g2).
  assert (forall x l h,
             forallb (fun c => negb (String.eqb c EmptyString)) (x :: l)
             = true ->
             (if coin h then 2 else 1)%nat
             = (1 + List.length
                      (if match optional_value x l h with
                          | EmptyString => false
                          | String _ _ => true
                          end
                       then [tt] else []))%nat) as Hcount.
  { intros x l h Hne.
    destruct (optional_value_spec x l h Hne) as (_ & _ & Hempty).
    destruct (coin h).
    - destruct (optional_value x l h); [|reflexivity].
      destruct Hempty as [Hempty _]. discriminate (Hempty eq_refl).
    - destruct Hempty as [_ Hempty]. now rewrite (Hempty eq_refl). }
  pose proof (Hcount "nuts" ["dairy"; "gluten"; "soy"] g1 eq_refl) as H1.
  pose proof (Hcount "normal" ["dry"; "oily"; "combination"; "sensitive"]
                     g2 eq_refl) as H2.
  pose proof (Hcount "straight" ["wavy"; "curly"; "fine"; "thick"]
                     g3 eq_refl) as H3.
  unfold after_row. fold g1. fold g2. fold g3.
  assert (pos (advance 2 (after_optional g3))
          = (2 + (if coin g3 then 2 else 1)
             + (if coin g2 then 2 else 1)
             + (if coin g1 then 2 else 1) + 18 + pos g)%nat) as ->.
  { unfold after_optional, g3, after_optional, g2, after_optional, g1,
      advance. cbn [pos tape]. lia. }
  rewrite H1, H2, H3.
  destruct (optional_value "nuts" _ g1),
           (optional_value "normal" _ g2),
           (optional_value "straight" _ g3); cbn [List.length]; lia.
Qed.

(** The loop over any indices reads, per iteration, twenty-three words
    and one more for each optional field the row fills. *)
Lemma for_each_draws indices :
  forall acc g,
  exists rows g',
    for_each indices acc g = Ok (acc ++ rows)%list g'
    /\ List.length rows = List.length indices
    /\ tape g' = tape g
    /\ pos g'
       = (pos g + 23 * List.length rows + list_sum (map filled rows))%nat.
Proof.
  induction indices as [|i rest IH]; intros acc g.
  - exists [], g. rewrite app_nil_r. cbn. repeat split. lia.
  - destruct (gen_row_run i g) as (row & Hrun & Hf).
    destruct (IH (acc ++ [row])%list (after_row g))
      as (rows & g' & Hrest & Hlen & Htape & Hpos).
    exists (row :: rows), g'. split; [|split; [|split]].
    + cbn [for_each]. unfold bind. rewrite Hrun, Hrest.
      now rewrite <- app_assoc.
    + cbn [List.length]. now rewrite Hlen.
    + rewrite Htape. reflexivity.
    + rewrite Hpos, (row_draws _ _ _ Hf).
      unfold list_sum. cbn [map fold_right List.length]. lia.
Qed.

(** X9. A run makes 23 * 400 = 9200 draws from the entropy source plus
    one for each optional field ([allergens], [skinType], [hairType])
    that it fills: twenty-three draws per record, and a candidate is drawn
    only after its coin came out [True].  So a run makes between 9200 and
    26 * 400 = 10400 draws, and it only reads the source. *)
Theorem draws_of_a_run (g : rng) :
  exists out g',
    main g = Ok out g'
    /\ tape g' = tape g
    /\ pos g'
       = (pos g + 23 * 400 + list_sum (map filled (products out)))%nat
    /\ (pos g + 23 * 400 <= pos g' <= pos g + 26 * 400)%nat.
Proof.
  destruct (for_each_draws (range 1 401) [] g)
    as (rows & g' & Hrun & Hlen & Htape & Hpos).
  rewrite range_length in Hlen.
  change (Z.to_nat (401 - 1)) with 400%nat in Hlen.
  eexists _, g'. split; [|split; [exact Htape|]].
  - unfold main, bind, generate. rewrite Hrun. reflexivity.
  - cbn [products]. change ([] ++ rows)%list with rows.
    rewrite Hlen in Hpos. split; [exact Hpos|].
    assert (list_sum (map filled rows) <= 3 * List.length rows)%nat.
    { clear. induction rows as [|r rows IH]; [cbn; lia|].
      unfold list_sum in *. cbn [map fold_right List.length].
      pose proof (filled_le r). lia. }
    lia.
Qed.

(** In every run, every row satisfies what the iterations guarantee of a
    row made from the tape of the run. *)
Lemma run_rows_on_tape (P : dict -> Prop) g :
  (forall i gi row,
      tape gi = tape g -> row_facts i gi row -> row_more i gi row -> P row) ->
  exists out g',
    main g = Ok out g'
    /\ List.length (products out) = 400%nat
    /\ Forall P (products out).
Proof.
  intros HP. destruct (main_steps g) as (rows & Hmain & Hlen & Hnth).
  eexists _, _. split; [exact Hmain|]. cbn [products].
  split; [exact Hlen|]. apply Forall_forall. intros row Hin.
  apply In_nth_error in Hin as (n & Hn).
  assert (n < 400)%nat as Hlt.
  { rewrite <- Hlen. apply nth_error_Some. congruence. }
  destruct (Hnth n Hlt) as (row' & Hr & Hstep).
  assert (row' = row) as -> by congruence.
  destruct (row_of_step _ _ _ _ Hstep) as (_ & F1 & F2).
  eapply HP; [apply state_at_tape | eassumption ..].
Qed.

(** X10. Nothing keeps the barcodes of a file apart: for every number [b]
    of the range [100000000000 .. 999999999999] there is a run all of
    whose 400 records carry the barcode [b]. *)
Theorem barcodes_can_collide (b : Z) :
  100000000000 <= b <= 999999999999 ->
  exists g out g',
    main g = Ok out g'
    /\ List.length (products out) = 400%nat
    /\ Forall (fun row => dict_get "barcode" row = Some (VStr (str_of_int b)))
              (products out).
Proof.
  intros Hb. exists (mk_rng (fun _ => b - 100000000000) 0).
  apply run_rows_on_tape. intros i gi row Htape _ Hm.
  rewrite (rm_barcode _ _ _ Hm), Htape. cbn [tape].
  rewrite Z.mod_small by lia. do 3 f_equal. lia.
Qed.

(** [barcodes_can_collide] at the smallest barcode. *)
Lemma barcodes_can_collide_witness :
  100000000000 <= 100000000000 <= 999999999999
  /\ exists g out g',
       main g = Ok out g'
       /\ List.length (products out) = 400%nat
       /\ Forall (fun row =>
                    dict_get "barcode" row
                    = Some (VStr (str_of_int 100000000000)))
                 (products out).
Proof.
  split; [lia | apply (barcodes_can_collide 100000000000); lia].
Defined.

End Draws.

(** ** The ratings that occur *)

Section RatingValues.
Import PyStr PyRandom Generator Checks Pandas Script RowShape.

Lemma same_float_eq x y : same_float x y = true -> x = y.
Proof.
  destruct x as [a|a| |a m e], y as [b|b| |b n f]; cbn [same_float];
    intros H; try discriminate H.
  - apply Bool.eqb_prop in H. now subst.
  - apply Bool.eqb_prop in H. now subst.
  - reflexivity.
  - apply andb_prop in H as [H He]. apply andb_prop in H as [Ha Hm].
    apply Bool.eqb_prop in Ha. apply Pos.eqb_eq in Hm. apply Z.eqb_eq in He.
    now subst.
Qed.

Lemma In_range a b d : a <= d < b -> In d (range a b).
Proof.
  intros H. apply (nth_error_In _ (Z.to_nat (d - a))).
  rewrite range_nth by lia. f_equal. lia.
Qed.

(** The sixteen words of entropy, one per rating. *)
Lemma rating_words :
  forallb (fun d =>
             same_float (rating_of_word (word_for_tenths d))
                        (PyFloat.of_ratio d 10)
             && tenths_ok d)
          (range 35 51)
  = true.
Proof. vm_compute. reflexivity. Qed.

(** X11. Each of the sixteen ratings 3.5, 3.6, ..., 5.0 occurs: for every
    number of tenths [d] from 35 to 50 there is a run all of whose records
    carry the double nearest to [d / 10] as their [rating], written with
    one digit after the point.  In particular the upper end 5.0 is
    reached, although [random.random()] stays below 1. *)
Theorem every_tenth_is_a_rating (d : Z) :
  35 <= d <= 50 ->
  exists g out g',
    main g = Ok out g'
    /\ List.length (products out) = 400%nat
    /\ Forall (fun row =>
                 dict_get "rating" row
                 = Some (VFloat (PyFloat.of_ratio d 10)))
              (products out)
    /\ text (VFloat (PyFloat.of_ratio d 10))
       = str_of_int (d / 10) ++ "." ++ str_of_int (d mod 10).
Proof.
  intros Hd.
  pose proof rating_words as Hall. rewrite forallb_forall in Hall.
  specialize (Hall d (In_range 35 51 d ltac:(lia))).
  apply andb_prop in Hall as [Hsame Hok].
  apply same_float_eq in Hsame.
  unfold tenths_ok in Hok. apply andb_prop in Hok as [_ Htext].
  apply String.eqb_eq in Htext.
  exists (mk_rng (fun _ => word_for_tenths d) 0).
  destruct (run_rows_on_tape
              (fun row => dict_get "rating" row
                          = Some (VFloat (PyFloat.of_ratio d 10)))
              (mk_rng (fun _ => word_for_tenths d) 0))
    as (out & g' & Hmain & Hlen & Hrows).
  { intros i gi row Htape _ Hm.
    rewrite (rm_rating _ _ _ Hm), Htape. cbn [tape].
    rewrite <- Hsame. reflexivity. }
  exists out, g'. auto.
Qed.

(** [every_tenth_is_a_rating] at the rating 5.0. *)
Lemma every_tenth_is_a_rating_witness :
  35 <= 50 <= 50
  /\ exists g out g',
       main g = Ok out g'
       /\ List.length (products out) = 400%nat
       /\ Forall (fun row =>
                    dict_get "rating" row
                    = Some (VFloat (PyFloat.of_ratio 50 10)))
                 (products out)
       /\ text (VFloat (PyFloat.of_ratio 50 10))
          = str_of_int (50 / 10) ++ "." ++ str_of_int (50 mod 10).
Proof.
  split; [lia | apply (every_tenth_is_a_rating 50); lia].
Defined.

End RatingValues.

(** ** The file and the summary *)

Section FileFacts.
Import PyStr PyRandom Generator Checks Pandas Script RowShape Reporter.

(** A run: its outcome is built from 400 rows, each made by an iteration
    of the loop. *)
Lemma run_shape g :
  exists rows,
    main g = Ok (mk_outcome rows (from_records rows all_columns)
                   output_file (to_csv (from_records rows all_columns)))
                (state_at 400 g)
    /\ List.length rows = 400%nat
    /\ Forall (fun row => exists i gi, row_facts i gi row /\ row_more i gi row)
              rows
    /\ forall n, (n < 400)%nat ->
         exists row, nth_error rows n = Some row
                     /\ row_facts (Z.of_nat n + 1) (state_at n g) row
                     /\ row_more (Z.of_nat n + 1) (state_at n g) row.
Proof.
  destruct (main_steps g) as (rows & Hmain & Hlen & Hnth).
  exists rows. split; [exact Hmain|]. split; [exact Hlen|].
  assert (forall n, (n < 400)%nat ->
            exists row, nth_error rows n = Some row
                        /\ row_facts (Z.of_nat n + 1) (state_at n g) row
                        /\ row_more (Z.of_nat n + 1) (state_at n g) row)
    as Hall.
  { intros n Hn. destruct (Hnth n Hn) as (row & Hr & Hstep).
    destruct (row_of_step _ _ _ _ Hstep) as (_ & F1 & F2).
    exists row. auto. }
  split; [|exact Hall].
  apply Forall_forall. intros row Hin.
  apply In_nth_error in Hin as (n & Hn).
  assert (n < 400)%nat as Hlt.
  { rewrite <- Hlen. apply nth_error_Some. congruence. }
  destruct (Hall n Hlt) as (row' & Hr & F1 & F2).
  assert (row' = row) as -> by congruence. eauto.
Qed.

Lemma made_rows_typed rows :
  Forall (fun row => exists i gi, row_facts i gi row /\ row_more i gi row)
         rows ->
  Forall typed_row rows.
Proof.
  apply Forall_impl. intros row (i & gi & Hf & _).
  exact (row_facts_typed _ _ _ Hf).
Qed.

Lemma made_rows_plain rows :
  Forall (fun row => exists i gi, row_facts i gi row /\ row_more i gi row)
         rows ->
  Forall (fun row => Forall (fun kv => plain (snd kv)) row) rows.
Proof.
  apply Forall_impl. intros row (i & gi & Hf & _).
  exact (rf_plain _ _ _ Hf).
Qed.

Lemma dict_get_Forall (P : string * value -> Prop) c row v :
  Forall P row -> dict_get c row = Some v -> P (c, v).
Proof.
  intros H. induction H as [|[k w] rest Hk Hrest IH]; [discriminate|].
  cbn [dict_get]. destruct (String.eqb c k) eqn:E.
  - apply String.eqb_eq in E. subst k. intros [= <-]. exact Hk.
  - exact IH.
Qed.

Lemma double_quotes_none s :
  has (Ascii.eqb dquote) s = false -> double_quotes s = s.
Proof.
  induction s as [|c s IH]; [reflexivity|].
  rewrite has_String. intros H. apply orb_false_iff in H as [Hc Hs].
  cbn [double_quotes]. rewrite Ascii.eqb_sym, Hc, (IH Hs). reflexivity.
Qed.

(** A field without quote characters is written between quotes when it
    holds a comma or a line feed, and as it is otherwise. *)
Lemma csv_field_plain s :
  has (Ascii.eqb dquote) s = false ->
  csv_field s = if has special s then quoted s else s.
Proof.
  intros H. unfold csv_field, needs_quoting. fold (has special s).
  now rewrite (double_quotes_none _ H).
Qed.

Lemma csv_record_long fields :
  (1 < List.length fields)%nat ->
  csv_record fields = join "," (map csv_field fields).
Proof.
  destruct fields as [|a [|b l]]; cbn [List.length]; [lia | lia |].
  intros _. destruct a; reflexivity.
Qed.

Lemma row_line_shown i gi row :
  row_facts i gi row -> row_more i gi row ->
  row_line row = join "," (map (shown_field row) all_columns)
  /\ forall c, has (Ascii.eqb dquote) (cell_str (dict_get c row)) = false.
Proof.
  intros Hf Hm.
  assert (forall c, has (Ascii.eqb dquote) (cell_str (dict_get c row)) = false)
    as Hquote.
  { intros c. destruct (dict_get c row) as [v|] eqn:Hget; [|reflexivity].
    exact (proj2 (dict_get_Forall _ _ _ _ (rm_quoting _ _ _ Hm) Hget)). }
  split; [|exact Hquote].
  unfold row_line.
  rewrite csv_record_long by (rewrite length_map; cbn; lia).
  rewrite map_map. f_equal. apply map_ext_in. intros c Hc.
  rewrite csv_field_plain by apply Hquote. unfold shown_field.
  rewrite <- (rf_keys _ _ _ Hf) in Hc.
  destruct (In_dict_get _ _ Hc) as (v & Hget). rewrite Hget.
  pose proof (proj1 (dict_get_Forall _ _ _ _ (rm_quoting _ _ _ Hm) Hget))
    as Hs.
  cbn [fst snd] in Hs. unfold text in Hs. rewrite Hs. reflexivity.
Qed.

(** X14. In the file of every run, each data line is the forty fields of
    its record joined by commas, in the declared order, where the cells of
    [tags], [features], [ingredients], [careInstructions], [keywords] and
    [metaDescription] (the ones that hold commas) stand between quotes and
    every other cell is written bare; no cell holds a quote character, so
    nothing is ever escaped. *)
Theorem six_columns_are_quoted (g : rng) :
  exists out g',
    main g = Ok out g'
    /\ lines (written out)
       = join "," all_columns
         :: map (fun row => join "," (map (shown_field row) all_columns))
                (products out)
    /\ Forall (fun row =>
                 forall c,
                   has (Ascii.eqb dquote) (cell_str (dict_get c row)) = false)
              (products out).
Proof.
  destruct (run_shape g) as (rows & Hmain & Hlen & Hmade & _).
  eexists _, _. split; [exact Hmain|]. cbn [products written].
  destruct (csv_of_rows rows (made_rows_typed _ Hmade)
                        (made_rows_plain _ Hmade)) as [_ Hlines].
  rewrite Hlines. split.
  - unfold header_line. f_equal.
    apply map_ext_in. intros row Hin. rewrite Forall_forall in Hmade.
    destruct (Hmade row Hin) as (i & gi & Hf & Hm).
    exact (proj1 (row_line_shown _ _ _ Hf Hm)).
  - revert Hmade. apply Forall_impl. intros row (i & gi & Hf & Hm).
    exact (proj2 (row_line_shown _ _ _ Hf Hm)).
Qed.

End FileFacts.

Section FrameFacts.
Import PyStr PyRandom Generator Checks Pandas Script RowShape Reporter.

Lemma int_field row c z :
  existsb (String.eqb c) quoted_columns = false ->
  dict_get c row = Some (VInt z) -> 0 <= z ->
  exists z',
    dict_get c row = Some (VInt z')
    /\ shown_field row c = str_of_int z'
    /\ all_digits (shown_field row c) = true
    /\ decimal_value (shown_field row c) = Some z'.
Proof.
  intros Hq Hget Hz. exists z. unfold shown_field. rewrite Hq, Hget.
  cbn [cell_str].
  rewrite all_digits_str_of_int, decimal_value_str_of_int by exact Hz.
  auto.
Qed.

(** X15. The frame of every run has the declared columns and holds, row by
    row, the values of the records unchanged: no column of integers is
    turned into floats.  So under each of [price], [originalPrice],
    [stock], [reviewCount], [minOrderQuantity] and [maxOrderQuantity] the
    file shows a bare string of decimal digits, without sign or decimal
    point, that reads back as the record's integer. *)
Theorem integers_stay_integers (g : rng) :
  exists out g',
    main g = Ok out g'
    /\ columns (df out) = all_columns
    /\ data (df out) = map (cells_of all_columns) (products out)
    /\ Forall (fun row =>
                 Forall (fun c =>
                           exists z,
                             dict_get c row = Some (VInt z)
                             /\ shown_field row c = str_of_int z
                             /\ all_digits (shown_field row c) = true
                             /\ decimal_value (shown_field row c) = Some z)
                        int_columns)
              (products out).
Proof.
  destruct (run_shape g) as (rows & Hmain & Hlen & Hmade & _).
  eexists _, _. split; [exact Hmain|]. cbn [products df].
  split; [reflexivity|]. split.
  - rewrite data_typed by exact (made_rows_typed _ Hmade). reflexivity.
  - revert Hmade. apply Forall_impl. intros row (i & gi & Hf & _).
    destruct (rf_price _ _ _ Hf) as (price & delta & Hp & Ho & Hpr & Hdr).
    destruct (rf_stock _ _ _ Hf) as (stock & Hs & Hsr).
    destruct (rf_reviews _ _ _ Hf) as (reviews & Hr & Hrr).
    destruct (rf_max _ _ _ Hf) as (most & Hmost & Hmr).
    pose proof (rf_min _ _ _ Hf) as Hmin.
    unfold int_columns.
    repeat (apply Forall_cons;
            [eapply int_field; [reflexivity | eassumption | lia]|]).
    apply Forall_nil.
Qed.

(** X12. The preview the script prints last is taken from the frame
    without error: it has the five columns [name], [category], [images],
    [price] and [brand], in this order, and three rows, which hold the
    values of the first three records; these are the products 1, 2 and 3
    of the category "Proteins", shown with the image files 2, 3 and 4. *)
Theorem preview_shows_first_three (g : rng) :
  exists out g' shown,
    main g = Ok out g'
    /\ preview (df out) = Some shown
    /\ columns shown = ["name"; "category"; "images"; "price"; "brand"]
    /\ data shown = map (cells_of preview_columns) (firstn 3 (products out))
    /\ map (fun cells => firstn 3 cells) (data shown)
       = map (fun i =>
                [Some (VStr ("Protein Supplement " ++ str_of_int i));
                 Some (VStr "Proteins");
                 Some (VStr (image_path (i mod 9 + 1)))])
             [1; 2; 3].
Proof.
  destruct (run_shape g) as (rows & Hmain & Hlen & Hmade & Hnth).
  assert (data (from_records rows all_columns)
          = map (cells_of all_columns) rows) as Hdata.
  { rewrite data_typed by exact (made_rows_typed _ Hmade). reflexivity. }
  assert (preview (from_records rows all_columns)
          = Some (mk_frame preview_columns
                    (map (cells_of preview_columns) (firstn 3 rows))))
    as Hprev.
  { unfold preview, getitem.
    change (columns (from_records rows all_columns)) with all_columns.
    rewrite Hdata.
    assert (positions preview_columns all_columns = Some [0; 5; 4; 2; 7]%nat)
      as -> by (vm_compute; reflexivity).
    cbn [option_map]. unfold head. cbn [columns data].
    rewrite map_map, firstn_map. reflexivity. }
  eexists _, _, _. split; [exact Hmain|]. cbn [products df].
  split; [exact Hprev|]. cbn [columns data].
  split; [reflexivity|]. split; [reflexivity|].
  destruct (Hnth 0%nat ltac:(lia)) as (r1 & E1 & F1 & M1).
  destruct (Hnth 1%nat ltac:(lia)) as (r2 & E2 & F2 & M2).
  destruct (Hnth 2%nat ltac:(lia)) as (r3 & E3 & F3 & M3).
  destruct rows as [|a [|b [|c rest]]]; try discriminate E1;
    try discriminate E2; try discriminate E3.
  cbn [nth_error] in E1, E2, E3.
  injection E1 as ->. injection E2 as ->. injection E3 as ->.
  cbn [firstn map cells_of preview_columns].
  rewrite (rm_name _ _ _ M1), (rm_name _ _ _ M2), (rm_name _ _ _ M3).
  rewrite (rf_category _ _ _ F1), (rf_category _ _ _ F2),
    (rf_category _ _ _ F3).
  rewrite (rf_images _ _ _ F1), (rf_images _ _ _ F2), (rf_images _ _ _ F3).
  reflexivity.
Qed.

(** X13. The summary printed after the file is written is the same in
    every run, whatever was drawn: it names the file
    "protein_products_400_complete.csv", and it reports 400 products and
    40 columns. *)
Theorem summary_is_fixed (g : rng) :
  exists out g',
    main g = Ok out g'
    /\ messages (path out) (df out) all_columns
       = [ check_mark
             ++ " protein_products_400_complete.csv generated successfully!";
           bar_chart ++ " Total products: 400";
           wrench ++ " All 40 CSV columns included";
           target ++ " Key fixes applied:";
           "   - Category: 'Protien' " ++ arrow ++ " 'Proteins'";
           "   - Spelling: 'Protien' " ++ arrow ++ " 'Protein' throughout";
           "   - All required CSV fields included";
           "   - Using existing image paths (protien1.jpg to protien9.jpg)";
           "   - Proper data types and validation-ready format" ].
Proof.
  destruct (run_shape g) as (rows & Hmain & Hlen & _).
  eexists _, _. split; [exact Hmain|]. cbn [path df].
  unfold messages, len. rewrite data_from_records, length_map, Hlen.
  reflexivity.
Qed.

End FrameFacts.

(** ** The optional fields, for any list of candidates *)

Section OptionalFacts.
Import PyStr PyRandom Generator Checks Pandas Script RowShape.

Lemma choice_run {A} (seq : list A) g :
  match choice seq g with
  | Ok v g' => In v seq /\ g' = advance 1 g
  | Raise e => seq = [] /\ e = IndexError
  end.
Proof.
  destruct seq as [|x l]; [split; reflexivity|].
  unfold choice, bind, randbelow, ret. split; [|reflexivity].
  apply nth_In.
  assert (0 <= tape g (pos g) mod Z.of_nat (List.length (x :: l))
          < Z.of_nat (List.length (x :: l))) as H
    by (apply Z.mod_pos_bound; cbn [List.length]; lia).
  lia.
Qed.

(** X17. The expression that fills an optional field,
    [random.choice(candidates) if random.choice([True, False]) else ""],
    for any list of candidates: when the coin comes out [False] it yields
    the empty string after one draw, whatever the candidates; when the
    coin comes out [True] it yields a candidate after two draws, or
    raises [IndexError] if there is no candidate.  So an empty list of
    candidates fails only on the runs where the coin is [True]. *)
Theorem optional_on_any_candidates (candidates : list string) (g : rng) :
  match optional candidates g with
  | Ok v g' =>
      (coin g = false /\ v = EmptyString /\ g' = advance 1 g)
      \/ (coin g = true /\ In v candidates /\ g' = advance 2 g)
  | Raise e => coin g = true /\ candidates = [] /\ e = IndexError
  end.
Proof.
  unfold optional, bind.
  change (choice [true; false] g) with (Ok (coin g) (advance 1 g)).
  destruct (coin g).
  - pose proof (choice_run candidates (advance 1 g)) as H.
    destruct (choice candidates (advance 1 g)) as [v g'|e].
    + right. destruct H as [Hin ->]. auto.
    + destruct H as [-> ->]. auto.
  - left. auto.
Qed.

End OptionalFacts.
